(** * rich/panel.py: a bordered panel around console content

    A shallow embedding of [Panel] (its constructor, [__console__] and
    [__measure__]) and the properties of its width computation, of the
    segment sequence it yields and of its effects.

    The panel object lives in a small heap next to the state of the
    external world (console, renderer, content).  The methods are written
    in a state/exception monad that also records, in program order, every
    call to a collaborator and every [yield]: the generator [__console__]
    is modelled by the trace of a complete iteration, and a prefix of that
    trace is what a consumer that stops early has seen. *)

From Stdlib Require Import ZArith List String Ascii Bool Lia.
Import ListNotations.

Local Open Scope Z_scope.

(** ** Values built by the external modules *)

(** Modelled from the spec: [rich.console.Measurement] is not part of the
    sources; the spec gives it as the pair (minimumWidth, maximumWidth). *)
Record Measurement : Type := mkMeasurement { minimum : Z; maximum : Z }.

(** What a call can end in: a value, or a Python exception. *)
Inductive Outcome (Exn A : Type) : Type :=
| Ok (a : A)
| Raise (e : Exn).
Arguments Ok {Exn A} a.
Arguments Raise {Exn A} e.

Definition newline : string := String (ascii_of_nat 10) EmptyString.

Section Rich.

(** The types of [rich.style], [rich.console] and of the content, the state
    of everything outside the panel, and the exceptions collaborators raise. *)
Context {Style Renderable Console ConsoleOptions World Exn : Type}.

(** [Union[str, Style]]: a style name or a resolved style. *)
Inductive StyleDef : Type :=
| StyleName (name : string)
| StyleObj (s : Style).

(** Modelled from the spec: [rich.segment.Segment] is not part of the
    sources; the spec gives it as a text run with its style, or a bare
    line-break marker ([Segment.line()]). *)
Inductive Segment : Type :=
| mkSegment (text : string) (style : Style)
| Segment_line.

(** Modelled from the spec: [rich.box.Box] is not part of the sources; an
    immutable set of glyphs with the two border-line generators, each taking
    a list of column widths. *)
Record Box : Type := mkBox {
  mid_left : string;
  mid_right : string;
  get_top : list Z -> string;
  get_bottom : list Z -> string
}.

(** The attributes [__init__] stores on a [Panel]. *)
Record Panel : Type := mkPanel {
  renderable : Renderable;
  box : Box;
  expand : bool;
  style : StyleDef;
  width : option Z
}.

(** The collaborators [panel.py] imports and calls.  Each may change the
    outside world and may raise; none of them is handed the panel. *)
Record Collaborators : Type := mkCollaborators {
  (* console.get_style(name) *)
  Console_get_style :
    Console -> StyleDef -> World -> World * Outcome Exn Style;
  (* Measurement.get(console, renderable, max_width) *)
  Measurement_get :
    Console -> Renderable -> Z -> World -> World * Outcome Exn Measurement;
  (* console.render_lines(renderable, options) *)
  Console_render_lines :
    Console -> Renderable -> ConsoleOptions -> World ->
    World * Outcome Exn (list (list Segment));
  (* options.max_width *)
  max_width : ConsoleOptions -> Z;
  (* options.update(width=w) *)
  ConsoleOptions_update : ConsoleOptions -> Z -> ConsoleOptions
}.

(** ** Heap, trace and monad *)

Record Heap : Type := mkHeap { self_obj : Panel; world : World }.

Inductive Event : Type :=
| EvGetStyle (console : Console) (name : StyleDef)
| EvMeasurementGet (console : Console) (r : Renderable) (max_width : Z)
| EvOptionsUpdate (options : ConsoleOptions) (width : Z)
| EvRenderLines (console : Console) (r : Renderable) (options : ConsoleOptions)
| EvGetTop (widths : list Z)
| EvGetBottom (widths : list Z)
| EvYield (s : Segment).

Definition Trace : Type := list Event.

Definition M (A : Type) : Type := Heap -> Trace * Heap * Outcome Exn A.

Definition ret {A} (a : A) : M A := fun h => ([], h, Ok a).

Definition bind {A B} (m : M A) (k : A -> M B) : M B :=
  fun h =>
    match m h with
    | (t1, h1, Ok a) =>
        match k a h1 with
        | (t2, h2, r) => (t1 ++ t2, h2, r)
        end
    | (t1, h1, Raise e) => (t1, h1, Raise e)
    end.

Notation "x <- m ;; k" := (bind m (fun x => k))
  (at level 61, m at next level, right associativity).
Notation "m ;;; k" := (bind m (fun _ => k))
  (at level 61, right associativity).

(** [self.attr] *)
Definition get_attr {A} (attr : Panel -> A) : M A :=
  fun h => ([], h, Ok (attr (self_obj h))).

(** [self.attr = v] *)
Definition set_attr (upd : Panel -> Panel) : M unit :=
  fun h => ([], mkHeap (upd (self_obj h)) (world h), Ok tt).

(** A call that runs in the outside world. *)
Definition call {A} (ev : Event) (f : World -> World * Outcome Exn A) : M A :=
  fun h =>
    match f (world h) with
    | (w', r) => ([ev], mkHeap (self_obj h) w', r)
    end.

(** A call to a method of an immutable value. *)
Definition call_pure {A} (ev : Event) (a : A) : M A :=
  fun h => ([ev], h, Ok a).

Definition yield (s : Segment) : M unit :=
  fun h => ([EvYield s], h, Ok tt).

Fixpoint for_each {A} (l : list A) (body : A -> M unit) : M unit :=
  match l with
  | [] => ret tt
  | x :: l' => body x ;;; for_each l' body
  end.

(** [yield from line] *)
Definition yield_from (line : list Segment) : M unit := for_each line yield.

(** ** The class *)

Variable R : Collaborators.

(** [Panel.__init__] (the defaults of [box], [expand], [style] and [width]
    are filled in by the caller). *)
Definition __init__ (renderable0 : Renderable) (box0 : Box) (expand0 : bool)
    (style0 : StyleDef) (width0 : option Z) : M unit :=
  set_attr (fun p => mkPanel renderable0 (box p) (expand p) (style p) (width p)) ;;;
  set_attr (fun p => mkPanel (renderable p) box0 (expand p) (style p) (width p)) ;;;
  set_attr (fun p => mkPanel (renderable p) (box p) expand0 (style p) (width p)) ;;;
  set_attr (fun p => mkPanel (renderable p) (box p) (expand p) style0 (width p)) ;;;
  set_attr (fun p => mkPanel (renderable p) (box p) (expand p) (style p) width0).

(** Lines 49-53: the width the panel starts from. *)
Definition start_width (self_width : option Z) (options : ConsoleOptions) : Z :=
  match self_width with
  | None => max_width R options
  | Some w => Z.min w (max_width R options)
  end.

(** Lines 48-59 of [__console__]: the resolved style and the locals [width]
    and [child_width] as they stand after line 59. *)
Definition console_widths (console : Console) (options : ConsoleOptions)
  : M (Style * Z * Z) :=
  self_style <- get_attr style ;;
  style <- call (EvGetStyle console self_style)
                (Console_get_style R console self_style) ;;
  self_width <- get_attr width ;;
  let width := start_width self_width options in
  self_expand <- get_attr expand ;;
  child_width <-
    (if self_expand then ret (width - 2)
     else
       self_renderable <- get_attr renderable ;;
       m <- call (EvMeasurementGet console self_renderable (width - 2))
                 (Measurement_get R console self_renderable (width - 2)) ;;
       ret (maximum m)) ;;
  let width := child_width + 2 in
  ret (style, width, child_width).

(** Lines 60-73 of [__console__], from the locals of line 59. *)
Definition console_emit (console : Console) (options : ConsoleOptions)
    (style : Style) (width child_width : Z) : M unit :=
  child_options <- call_pure (EvOptionsUpdate options child_width)
                             (ConsoleOptions_update R options child_width) ;;
  self_renderable <- get_attr renderable ;;
  lines <- call (EvRenderLines console self_renderable child_options)
                (Console_render_lines R console self_renderable child_options) ;;
  box <- get_attr box ;;
  let line_start := mkSegment (mid_left box) style in
  let line_end := mkSegment (mid_right box ++ newline) style in
  top <- call_pure (EvGetTop [width - 2]) (get_top box [width - 2]) ;;
  yield (mkSegment top style) ;;;
  yield Segment_line ;;;
  for_each lines (fun line =>
    yield line_start ;;;
    yield_from line ;;;
    yield line_end) ;;;
  bottom <- call_pure (EvGetBottom [width - 2]) (get_bottom box [width - 2]) ;;
  yield (mkSegment bottom style) ;;;
  yield Segment_line.

(** [Panel.__console__] *)
Definition __console__ (console : Console) (options : ConsoleOptions) : M unit :=
  swc <- console_widths console options ;;
  match swc with
  | (style, width, child_width) =>
      console_emit console options style width child_width
  end.

(** [Panel.__measure__] *)
Definition __measure__ (console : Console) (max_width : Z) : M Measurement :=
  self_expand <- get_attr expand ;;
  if self_expand then ret (mkMeasurement max_width max_width)
  else
    self_renderable <- get_attr renderable ;;
    m <- call (EvMeasurementGet console self_renderable (max_width - 2))
              (Measurement_get R console self_renderable (max_width - 2)) ;;
    let width := maximum m + 2 in
    ret (mkMeasurement width width).

(** [Panel(renderable, box=.., expand=.., style=.., width=..)]: a call of
    the constructor, each keyword argument given ([Some]) or left to its
    default of lines 36-39.  [box.ROUNDED], the default box, is a constant
    of [rich.box]; a [width] left out and a [width] of [None] are the same
    call. *)
Definition Panel_new (ROUNDED : Box) (renderable0 : Renderable)
    (box0 : option Box) (expand0 : option bool) (style0 : option StyleDef)
    (width0 : option Z) : M unit :=
  __init__ renderable0
    (match box0 with Some b => b | None => ROUNDED end)
    (match expand0 with Some e => e | None => true end)
    (match style0 with Some n => n | None => StyleName "none" end)
    width0.

(** The calls of a render up to and including [console.render_lines], which
    come before the first [yield]. *)
Definition console_calls (p : Panel) (console : Console)
    (options : ConsoleOptions) (inner : Z) : list Event :=
  EvGetStyle console (style p)
  :: (if expand p then []
      else [EvMeasurementGet console (renderable p)
              (start_width (width p) options - 2)])
  ++ [EvOptionsUpdate options inner;
      EvRenderLines console (renderable p)
        (ConsoleOptions_update R options inner)].

(** The widths at which the renderer is asked to measure the content, in
    order. *)
Fixpoint measurement_calls (t : list Event) : list Z :=
  match t with
  | [] => []
  | EvMeasurementGet _ _ w :: t' => w :: measurement_calls t'
  | _ :: t' => measurement_calls t'
  end.

(** A renderer whose measurements stay within the width it is given. *)
Definition measures_within : Prop :=
  forall console r available w w' m,
    Measurement_get R console r available w = (w', Ok m) ->
    maximum m <= available.

(** ** Observations on a run *)

Definition trace_of {A} (r : list Event * Heap * Outcome Exn A) : list Event :=
  fst (fst r).
Definition heap_of {A} (r : list Event * Heap * Outcome Exn A) : Heap :=
  snd (fst r).
Definition outcome_of {A} (r : list Event * Heap * Outcome Exn A)
  : Outcome Exn A := snd r.

(** The segments a consumer of the generator receives, in order. *)
Fixpoint yields (t : list Event) : list Segment :=
  match t with
  | [] => []
  | EvYield s :: t' => s :: yields t'
  | _ :: t' => yields t'
  end.

(** The calls to the two border generators, in order. *)
Fixpoint border_calls (t : list Event) : list Event :=
  match t with
  | [] => []
  | EvGetTop ws :: t' => EvGetTop ws :: border_calls t'
  | EvGetBottom ws :: t' => EvGetBottom ws :: border_calls t'
  | _ :: t' => border_calls t'
  end.

(** The style lookups, in order. *)
Fixpoint style_lookups (t : list Event) : list Event :=
  match t with
  | [] => []
  | EvGetStyle c n :: t' => EvGetStyle c n :: style_lookups t'
  | _ :: t' => style_lookups t'
  end.

(** The widths handed to the renderer: the argument of every
    [Measurement.get] and of every [options.update], in order. *)
Fixpoint renderer_widths (t : list Event) : list Z :=
  match t with
  | [] => []
  | EvMeasurementGet _ _ w :: t' => w :: renderer_widths t'
  | EvOptionsUpdate _ w :: t' => w :: renderer_widths t'
  | _ :: t' => renderer_widths t'
  end.

(** The inner width as the spec words it: the starting outer width minus 2
    when [expand] is true, the maximum of the renderer's measurement of the
    content at that width when [expand] is false. *)
Definition spec_inner_width (p : Panel) (console : Console)
    (options : ConsoleOptions) (w : World) : World * Outcome Exn Z :=
  let outer := start_width (width p) options in
  if expand p then (w, Ok (outer - 2))
  else
    match Measurement_get R console (renderable p) (outer - 2) w with
    | (w', Ok m) => (w', Ok (maximum m))
    | (w', Raise e) => (w', Raise e)
    end.

(** The output as the spec words it, one list of segments per visual line:
    the top border and a line break; each content line between a left edge
    and a right edge that carries the line break; the bottom border and a
    line break. *)
Definition panel_lines (b : Box) (s : Style) (inner : Z)
    (lines : list (list Segment)) : list (list Segment) :=
  [mkSegment (get_top b [inner]) s; Segment_line]
  :: map (fun line =>
            mkSegment (mid_left b) s :: line
            ++ [mkSegment (mid_right b ++ newline) s]) lines
  ++ [[mkSegment (get_bottom b [inner]) s; Segment_line]].

(** A segment that ends a visual line. *)
Definition line_break (seg : Segment) : Prop :=
  match seg with
  | Segment_line => True
  | mkSegment text _ => exists glyph, text = (glyph ++ newline)%string
  end.

(** The same panel with another [width] attribute. *)
Definition with_width (p : Panel) (w : option Z) : Panel :=
  mkPanel (renderable p) (box p) (expand p) (style p) w.

(** A collaborator call that leaves a projection of the world as it was. *)
Definition keeps {X A} (proj : World -> X)
    (f : World -> World * Outcome Exn A) : Prop :=
  forall w, proj (fst (f w)) = proj w.

(** All collaborators leave the projection as it was. *)
Definition read_only {X} (proj : World -> X) : Prop :=
  (forall c n, keeps proj (Console_get_style R c n)) /\
  (forall c r w, keeps proj (Measurement_get R c r w)) /\
  (forall c r o, keeps proj (Console_render_lines R c r o)).

(** Calls of the two methods on one panel. *)
Inductive Call : Type :=
| CallMeasure (console : Console) (max_width : Z)
| CallConsole (console : Console) (options : ConsoleOptions).

Definition run_call (h : Heap) (c : Call) : Heap :=
  match c with
  | CallMeasure console max_width =>
      heap_of (__measure__ console max_width h)
  | CallConsole console options =>
      heap_of (__console__ console options h)
  end.

Definition run_calls (cs : list Call) (h : Heap) : Heap :=
  fold_left run_call cs h.

(** The events of one iteration of the loop of lines 68-71. *)
Definition line_events (line_start line_end : Segment) (line : list Segment)
  : list Event :=
  EvYield line_start :: map EvYield line ++ [EvYield line_end].

(** The trace of a complete render as the spec's steps 1 to 6 give it: the
    style lookup; the measurement when the panel does not expand; the child
    options and the wrapped lines; the top border; the content lines between
    their edges; the bottom border. *)
Definition console_trace (p : Panel) (console : Console)
    (options : ConsoleOptions) (s : Style) (inner : Z)
    (lines : list (list Segment)) : list Event :=
  EvGetStyle console (style p)
  :: (if expand p then []
      else [EvMeasurementGet console (renderable p)
              (start_width (width p) options - 2)])
  ++ [EvOptionsUpdate options inner;
      EvRenderLines console (renderable p)
        (ConsoleOptions_update R options inner);
      EvGetTop [inner];
      EvYield (mkSegment (get_top (box p) [inner]) s);
      EvYield Segment_line]
  ++ flat_map
       (line_events (mkSegment (mid_left (box p)) s)
          (mkSegment (mid_right (box p) ++ newline) s)) lines
  ++ [EvGetBottom [inner];
      EvYield (mkSegment (get_bottom (box p) [inner]) s);
      EvYield Segment_line].

(** A computation that leaves the panel, and a projection of the world, as
    they were. *)
Definition preserves {X A} (proj : World -> X) (m : M A) : Prop :=
  forall h,
    self_obj (heap_of (m h)) = self_obj h /\
    proj (world (heap_of (m h))) = proj (world h).

(** How a render ends: in the exception of the first collaborator that
    raises, or with the complete trace. *)
Inductive ConsoleRun (console : Console) (options : ConsoleOptions)
    (h : Heap)
  : list Event -> Outcome Exn unit -> Prop :=
| RunStyleRaises e :
    ConsoleRun console options h
      [EvGetStyle console (style (self_obj h))] (Raise e)
| RunMeasureRaises e :
    expand (self_obj h) = false ->
    ConsoleRun console options h
      [EvGetStyle console (style (self_obj h));
       EvMeasurementGet console (renderable (self_obj h))
         (start_width (width (self_obj h)) options - 2)] (Raise e)
| RunLinesRaise inner e :
    ConsoleRun console options h
      (console_calls (self_obj h) console options inner) (Raise e)
| RunCompletes s inner lines :
    ConsoleRun console options h
      (console_trace (self_obj h) console options s inner lines) (Ok tt).

(** Two heaps a call cannot tell apart: the same panel, and worlds that
    agree on the projection (the content and the part of the console's
    state that its answers depend on). *)
Definition same_inputs {X} (proj : World -> X) (h h' : Heap) : Prop :=
  self_obj h = self_obj h' /\ proj (world h) = proj (world h').

(** A collaborator call whose answer, and whose effect on the projection,
    depend on the world through the projection only. *)
Definition determined {X A} (proj : World -> X)
    (f : World -> World * Outcome Exn A) : Prop :=
  forall w w',
    proj w = proj w' ->
    snd (f w) = snd (f w') /\ proj (fst (f w)) = proj (fst (f w')).

(** All collaborators answer by the projection. *)
Definition determined_by {X} (proj : World -> X) : Prop :=
  (forall c n, determined proj (Console_get_style R c n)) /\
  (forall c r w, determined proj (Measurement_get R c r w)) /\
  (forall c r o, determined proj (Console_render_lines R c r o)).

(** A computation that, from heaps it cannot tell apart, makes the same
    calls, yields the same segments and ends the same way, in heaps it
    cannot tell apart. *)
Definition deterministic {X A} (proj : World -> X) (m : M A) : Prop :=
  forall h h',
    same_inputs proj h h' ->
    trace_of (m h) = trace_of (m h')
    /\ outcome_of (m h) = outcome_of (m h')
    /\ same_inputs proj (heap_of (m h)) (heap_of (m h')).

End Rich.

(** ** A plain-text console, for concrete runs *)

Module Plain.

Definition dashes (n : Z) : string :=
  String.concat "" (repeat "-"%string (Z.to_nat n)).

(** An ASCII box: ["+---+"] for the column list [[3]]. *)
Definition ascii_border (widths : list Z) : string :=
  ("+" ++ String.concat "+" (map dashes widths) ++ "+")%string.

Definition ASCII : Box := mkBox "|" "|" ascii_border ascii_border.

Definition text_width (s : string) : Z := Z.of_nat (String.length s).

(** Styles are their names, the content is a line of plain text, options
    are a maximum width, the world counts nothing and nothing raises.  A
    text measures as its length, cut at the available width. *)
Definition console : @Collaborators string string unit Z nat unit :=
  mkCollaborators
    (fun _ n w => (w, Ok match n with StyleName s => s | StyleObj s => s end))
    (fun _ r mw w =>
       (w, Ok (mkMeasurement (Z.min (text_width r) mw)
                             (Z.min (text_width r) mw))))
    (fun _ r _ w => (w, Ok [[mkSegment r "none"%string]]))
    (fun o => o)
    (fun _ w => w).

Definition hello : @Panel string string :=
  mkPanel "Hello, World!"%string ASCII false (StyleName "red") None.

Definition hello_expand : @Panel string string :=
  mkPanel "Hello, World!"%string ASCII true (StyleName "red") (Some 10).

End Plain.

(** ** A console that can fail, for concrete runs that raise *)

Module Strict.

(** Only the styles "none" and "red" are known, a negative width cannot be
    measured and nothing is wrapped into less than one column; the world
    counts the calls, and an exception is its message. *)
Definition console : @Collaborators string string unit Z nat string :=
  mkCollaborators
    (fun _ n w =>
       (S w,
        match n with
        | StyleObj s => Ok s
        | StyleName s =>
            if (String.eqb s "none" || String.eqb s "red")%bool then Ok s
            else Raise "MissingStyle"%string
        end))
    (fun _ r mw w =>
       (S w,
        if mw <? 0 then Raise "negative width"%string
        else Ok (mkMeasurement (Z.min (Plain.text_width r) mw)
                               (Z.min (Plain.text_width r) mw))))
    (fun _ r o w =>
       (S w,
        if o <? 1 then Raise "no room"%string
        else Ok [[mkSegment r "none"%string]]))
    (fun o => o)
    (fun _ w => w).

Definition blue : @Panel string string :=
  mkPanel "Hello, World!"%string Plain.ASCII true (StyleName "blue") None.

End Strict.

(** * Properties *)

Section Properties.

Context {Style Renderable Console ConsoleOptions World Exn : Type}.
Variable R : @Collaborators Style Renderable Console ConsoleOptions World Exn.

Ltac run_monad :=
  unfold bind, ret, get_attr, set_attr, call, call_pure, yield; simpl.

(** ** Running the pieces of [__console__] *)

Lemma yield_from_run (line : list (@Segment Style))
    (h : @Heap Style Renderable World) :
  @yield_from Style Renderable Console ConsoleOptions World Exn line h
  = (map EvYield line, h, Ok tt).
Proof.
  unfold yield_from.
  induction line as [|seg line IH]; simpl; [reflexivity|].
  unfold bind. unfold yield at 1. rewrite IH. reflexivity.
Qed.

Lemma loop_run (line_start line_end : @Segment Style) lines
    (h : @Heap Style Renderable World) :
  for_each (Console := Console) (ConsoleOptions := ConsoleOptions)
    (Exn := Exn) lines
    (fun line =>
       bind (yield line_start) (fun _ =>
       bind (yield_from line) (fun _ => yield line_end))) h
  = (flat_map (line_events line_start line_end) lines, h, Ok tt).
Proof.
  induction lines as [|line lines IH]; simpl; [reflexivity|].
  unfold bind at 1. unfold bind at 1. unfold yield at 1.
  unfold bind at 1. rewrite yield_from_run. unfold yield at 1.
  rewrite IH. unfold line_events. simpl.
  rewrite <- app_assoc. reflexivity.
Qed.

Lemma console_widths_run console options h w1 s w2 inner :
  Console_get_style R console (style (self_obj h)) (world h) = (w1, Ok s) ->
  spec_inner_width R (self_obj h) console options w1 = (w2, Ok inner) ->
  console_widths R console options h
  = (EvGetStyle console (style (self_obj h))
     :: (if expand (self_obj h) then []
         else [EvMeasurementGet console (renderable (self_obj h))
                 (start_width R (width (self_obj h)) options - 2)]),
     mkHeap (self_obj h) w2, Ok (s, inner + 2, inner)).
Proof.
  intros Hs Hi. unfold console_widths, spec_inner_width in *.
  run_monad. rewrite Hs. simpl.
  destruct (expand (self_obj h)); simpl.
  - inversion Hi; subst. reflexivity.
  - destruct (Measurement_get R console _ _ w1) as [w' [m|e]] eqn:Hm;
      inversion Hi; subst. reflexivity.
Qed.

Lemma console_emit_run console options s outer inner h w' lines :
  Console_render_lines R console (renderable (self_obj h))
    (ConsoleOptions_update R options inner) (world h) = (w', Ok lines) ->
  console_emit R console options s outer inner h
  = ([EvOptionsUpdate options inner;
      EvRenderLines console (renderable (self_obj h))
        (ConsoleOptions_update R options inner);
      EvGetTop [outer - 2];
      EvYield (mkSegment (get_top (box (self_obj h)) [outer - 2]) s);
      EvYield Segment_line]
     ++ flat_map
          (line_events (mkSegment (mid_left (box (self_obj h))) s)
             (mkSegment (mid_right (box (self_obj h)) ++ newline) s)) lines
     ++ [EvGetBottom [outer - 2];
         EvYield (mkSegment (get_bottom (box (self_obj h)) [outer - 2]) s);
         EvYield Segment_line],
     mkHeap (self_obj h) w', Ok tt).
Proof.
  intros Hl. unfold console_emit.
  unfold bind at 1. unfold call_pure at 1.
  unfold bind at 1. unfold get_attr at 1.
  unfold bind at 1. unfold call at 1. rewrite Hl.
  unfold bind at 1. unfold get_attr at 1.
  unfold bind at 1. unfold call_pure at 1.
  unfold bind at 1. unfold yield at 1.
  unfold bind at 1. unfold yield at 1.
  unfold bind at 1. rewrite loop_run.
  run_monad. reflexivity.
Qed.

(** A render whose collaborators return leaves exactly [console_trace]. *)
Lemma console_run console options h w1 s w2 inner w3 lines :
  Console_get_style R console (style (self_obj h)) (world h) = (w1, Ok s) ->
  spec_inner_width R (self_obj h) console options w1 = (w2, Ok inner) ->
  Console_render_lines R console (renderable (self_obj h))
    (ConsoleOptions_update R options inner) w2 = (w3, Ok lines) ->
  __console__ R console options h
  = (console_trace R (self_obj h) console options s inner lines,
     mkHeap (self_obj h) w3, Ok tt).
Proof.
  intros Hs Hi Hl. unfold __console__, bind.
  rewrite (console_widths_run _ _ _ _ _ _ _ Hs Hi).
  rewrite (console_emit_run console options s (inner + 2) inner
             (mkHeap (self_obj h) w2) w3 lines Hl).
  unfold console_trace. simpl.
  replace (inner + 2 - 2) with inner by lia.
  destruct (expand (self_obj h)); reflexivity.
Qed.

(** ** Reading a trace *)

Lemma yields_app (t1 t2 : list (@Event Style Renderable Console ConsoleOptions)) :
  yields (t1 ++ t2) = yields t1 ++ yields t2.
Proof.
  induction t1 as [|ev t1 IH]; simpl; [reflexivity|].
  destruct ev; simpl; rewrite IH; reflexivity.
Qed.

Lemma border_calls_app
    (t1 t2 : list (@Event Style Renderable Console ConsoleOptions)) :
  border_calls (t1 ++ t2) = border_calls t1 ++ border_calls t2.
Proof.
  induction t1 as [|ev t1 IH]; simpl; [reflexivity|].
  destruct ev; simpl; rewrite IH; reflexivity.
Qed.

Lemma style_lookups_app
    (t1 t2 : list (@Event Style Renderable Console ConsoleOptions)) :
  style_lookups (t1 ++ t2) = style_lookups t1 ++ style_lookups t2.
Proof.
  induction t1 as [|ev t1 IH]; simpl; [reflexivity|].
  destruct ev; simpl; rewrite IH; reflexivity.
Qed.

Lemma renderer_widths_app
    (t1 t2 : list (@Event Style Renderable Console ConsoleOptions)) :
  renderer_widths (t1 ++ t2) = renderer_widths t1 ++ renderer_widths t2.
Proof.
  induction t1 as [|ev t1 IH]; simpl; [reflexivity|].
  destruct ev; simpl; rewrite IH; reflexivity.
Qed.

Lemma yields_map_yield (line : list (@Segment Style)) :
  yields (map (@EvYield Style Renderable Console ConsoleOptions) line) = line.
Proof. induction line; simpl; congruence. Qed.

Lemma yields_lines a b (lines : list (list (@Segment Style))) :
  yields (flat_map
            (line_events (Renderable := Renderable) (Console := Console)
               (ConsoleOptions := ConsoleOptions) a b) lines)
  = List.concat (map (fun line => a :: line ++ [b]) lines).
Proof.
  induction lines as [|line lines IH]; simpl; [reflexivity|].
  rewrite yields_app, yields_app, yields_map_yield, IH. simpl.
  reflexivity.
Qed.

(** The loop calls no collaborator: its events are yields only. *)
Lemma lines_only_yield a b (lines : list (list (@Segment Style))) :
  let t := flat_map
             (line_events (Renderable := Renderable) (Console := Console)
                (ConsoleOptions := ConsoleOptions) a b) lines in
  border_calls t = [] /\ style_lookups t = [] /\ renderer_widths t = [].
Proof.
  assert (Hmap : forall line : list (@Segment Style),
             let t := map (@EvYield Style Renderable Console ConsoleOptions)
                        line in
             border_calls t = [] /\ style_lookups t = []
             /\ renderer_widths t = []).
  { induction line; simpl; auto. }
  induction lines as [|line lines IH]; simpl; [auto|].
  destruct IH as (IH1 & IH2 & IH3).
  destruct (Hmap line) as (H1 & H2 & H3).
  rewrite border_calls_app, style_lookups_app, renderer_widths_app.
  rewrite IH1, IH2, IH3.
  rewrite border_calls_app, style_lookups_app, renderer_widths_app.
  rewrite H1, H2, H3. simpl. auto.
Qed.

Lemma yields_console_trace p console options s inner lines :
  yields (console_trace R p console options s inner lines)
  = List.concat (panel_lines (box p) s inner lines).
Proof.
  unfold console_trace, panel_lines.
  change (yields (EvGetStyle console (style p) :: ?t)) with (yields t).
  rewrite yields_app.
  replace (yields (if expand p then [] else _)) with (@nil (@Segment Style))
    by (destruct (expand p); reflexivity).
  simpl. rewrite yields_app, yields_lines. simpl.
  rewrite concat_app. simpl. reflexivity.
Qed.

Lemma border_calls_console_trace p console options s inner lines :
  border_calls (console_trace R p console options s inner lines)
  = [EvGetTop [inner]; EvGetBottom [inner]].
Proof.
  unfold console_trace.
  change (border_calls (EvGetStyle console (style p) :: ?t))
    with (border_calls t).
  rewrite border_calls_app.
  replace (border_calls (if expand p then [] else _))
    with (@nil (@Event Style Renderable Console ConsoleOptions))
    by (destruct (expand p); reflexivity).
  simpl. rewrite border_calls_app.
  rewrite (proj1 (lines_only_yield _ _ lines)). reflexivity.
Qed.

Lemma style_lookups_tail p console options s inner lines t :
  console_trace R p console options s inner lines
  = EvGetStyle console (style p) :: t ->
  style_lookups t = [].
Proof.
  unfold console_trace. intros H. inversion H; subst. clear H.
  rewrite style_lookups_app.
  replace (style_lookups (if expand p then [] else _))
    with (@nil (@Event Style Renderable Console ConsoleOptions))
    by (destruct (expand p); reflexivity).
  simpl. rewrite style_lookups_app.
  rewrite (proj1 (proj2 (lines_only_yield _ _ lines))). reflexivity.
Qed.

Lemma renderer_widths_console_trace p console options s inner lines :
  renderer_widths (console_trace R p console options s inner lines)
  = (if expand p then [] else [start_width R (width p) options - 2])
    ++ [inner].
Proof.
  unfold console_trace.
  change (renderer_widths (EvGetStyle console (style p) :: ?t))
    with (renderer_widths t).
  rewrite renderer_widths_app. f_equal.
  - destruct (expand p); reflexivity.
  - simpl. rewrite renderer_widths_app.
    rewrite (proj2 (proj2 (lines_only_yield _ _ lines))). reflexivity.
Qed.

(** ** The widths of a render *)

(** C1: in every render, once the inner width is computed ([outer - 2] when
    [expand] is true, the maximum of the renderer's measurement of the
    content at [outer - 2] when it is false), the local [width] is
    recomputed as the inner width plus 2, and the top and the bottom border
    generator are each called once, with the one-column list [[inner]].  The
    requested width is not what they get: they are called with it only if
    the inner width happens to equal it, which an expanding panel excludes. *)
Theorem border_generators_get_inner_width
    console options h w1 s w2 inner w3 lines :
  Console_get_style R console (style (self_obj h)) (world h) = (w1, Ok s) ->
  spec_inner_width R (self_obj h) console options w1 = (w2, Ok inner) ->
  Console_render_lines R console (renderable (self_obj h))
    (ConsoleOptions_update R options inner) w2 = (w3, Ok lines) ->
  let requested := start_width R (width (self_obj h)) options in
  let calls := border_calls (trace_of (__console__ R console options h)) in
  outcome_of (console_widths R console options h) = Ok (s, inner + 2, inner)
  /\ calls = [EvGetTop [inner]; EvGetBottom [inner]]
  /\ (expand (self_obj h) = true -> inner = requested - 2)
  /\ (inner <> requested ->
      ~ In (EvGetTop [requested]) calls
      /\ ~ In (EvGetBottom [requested]) calls).
Proof.
  intros Hs Hi Hl requested calls. subst calls.
  rewrite (console_run _ _ _ _ _ _ _ _ _ Hs Hi Hl).
  rewrite (console_widths_run _ _ _ _ _ _ _ Hs Hi).
  unfold trace_of, outcome_of. simpl fst. simpl snd.
  rewrite border_calls_console_trace.
  split; [reflexivity|]. split; [reflexivity|]. split.
  - intros He. unfold spec_inner_width in Hi. rewrite He in Hi.
    inversion Hi. reflexivity.
  - intros Hne. split; intros Hin; simpl in Hin;
      destruct Hin as [Hin|[Hin|[]]]; inversion Hin; congruence.
Qed.

(** ** The measurement *)

(** C2: [__measure__] returns [(max_width, max_width)] when [expand] is
    true, without calling anything; when [expand] is false it asks for the
    measurement of the content at [max_width - 2] and returns its maximum
    plus 2, twice.  Whatever it returns has its minimum equal to its
    maximum. *)
Theorem measure_returns console max_width h :
  (expand (self_obj h) = true ->
     __measure__ R console max_width h
     = ([], h, Ok (mkMeasurement max_width max_width)))
  /\ (expand (self_obj h) = false ->
      forall w' m,
        Measurement_get R console (renderable (self_obj h)) (max_width - 2)
          (world h) = (w', Ok m) ->
        __measure__ R console max_width h
        = ([EvMeasurementGet console (renderable (self_obj h))
              (max_width - 2)],
           mkHeap (self_obj h) w',
           Ok (mkMeasurement (maximum m + 2) (maximum m + 2))))
  /\ (forall t h' m,
        __measure__ R console max_width h = (t, h', Ok m) ->
        minimum m = maximum m).
Proof.
  unfold __measure__, bind, get_attr, call, ret.
  split; [|split].
  - intros He. rewrite He. reflexivity.
  - intros He w' m Hm. rewrite He, Hm. reflexivity.
  - intros t h' m.
    destruct (expand (self_obj h)).
    + intros H. inversion H. reflexivity.
    + destruct (Measurement_get R console _ _ (world h)) as [w' [m'|e]];
        intros H; inversion H. reflexivity.
Qed.

(** ** The segments *)

Lemma panel_lines_end_in_break (b : @Box) (s : Style) inner lines :
  Forall (fun l => exists body seg, l = body ++ [seg] /\ line_break seg)
    (panel_lines b s inner lines).
Proof.
  unfold panel_lines. constructor.
  - exists [mkSegment (get_top b [inner]) s], Segment_line.
    split; [reflexivity | exact I].
  - apply Forall_app. split.
    + apply Forall_map. apply Forall_forall. intros line _.
      exists (mkSegment (mid_left b) s :: line),
             (mkSegment (mid_right b ++ newline) s).
      split; [reflexivity|]. simpl. exists (mid_right b). reflexivity.
    + constructor; [|constructor].
      exists [mkSegment (get_bottom b [inner]) s], Segment_line.
      split; [reflexivity | exact I].
Qed.

(** C3: a render whose collaborators return yields, in this order, the
    styled top border and a line break; for each wrapped line of the
    content, in order, the styled left edge, the segments of that line as
    they are, and the styled right edge with its line break; the styled
    bottom border and a line break.  These are as many visual lines as the
    renderer wrapped the content into, plus 2, each ended by a segment that
    breaks the line; and the generator then finishes without raising. *)
Theorem console_yields console options h w1 s w2 inner w3 lines :
  Console_get_style R console (style (self_obj h)) (world h) = (w1, Ok s) ->
  spec_inner_width R (self_obj h) console options w1 = (w2, Ok inner) ->
  Console_render_lines R console (renderable (self_obj h))
    (ConsoleOptions_update R options inner) w2 = (w3, Ok lines) ->
  let visual := panel_lines (box (self_obj h)) s inner lines in
  yields (trace_of (__console__ R console options h)) = List.concat visual
  /\ List.length visual = (List.length lines + 2)%nat
  /\ Forall (fun l => exists body seg, l = body ++ [seg] /\ line_break seg)
       visual
  /\ outcome_of (__console__ R console options h) = Ok tt.
Proof.
  intros Hs Hi Hl visual. subst visual.
  rewrite (console_run _ _ _ _ _ _ _ _ _ Hs Hi Hl).
  unfold trace_of, outcome_of. simpl fst. simpl snd.
  split; [apply yields_console_trace|].
  split; [|split; [apply panel_lines_end_in_break | reflexivity]].
  unfold panel_lines. simpl. rewrite length_app, length_map. simpl. lia.
Qed.

(** C10: within one render whose collaborators return, the border style is
    looked up once, as the first thing the generator does and so before
    anything is yielded; the style that lookup returned is the style of the
    top border, of every left and right edge and of the bottom border,
    while the segments of the content lines are yielded as the renderer
    gave them; and the two border generators are called with the same
    argument. *)
Theorem border_style_resolved_once console options h w1 s w2 inner w3 lines :
  Console_get_style R console (style (self_obj h)) (world h) = (w1, Ok s) ->
  spec_inner_width R (self_obj h) console options w1 = (w2, Ok inner) ->
  Console_render_lines R console (renderable (self_obj h))
    (ConsoleOptions_update R options inner) w2 = (w3, Ok lines) ->
  let t := trace_of (__console__ R console options h) in
  let lookup := EvGetStyle console (style (self_obj h)) in
  t = console_trace R (self_obj h) console options s inner lines
  /\ style_lookups t = [lookup]
  /\ (exists t', t = lookup :: t' /\ style_lookups t' = [])
  /\ yields t = List.concat (panel_lines (box (self_obj h)) s inner lines)
  /\ (exists widths, border_calls t = [EvGetTop widths; EvGetBottom widths]).
Proof.
  intros Hs Hi Hl t lookup. subst t lookup.
  rewrite (console_run _ _ _ _ _ _ _ _ _ Hs Hi Hl).
  unfold trace_of. simpl fst.
  assert (Htail : exists t',
             console_trace R (self_obj h) console options s inner lines
             = EvGetStyle console (style (self_obj h)) :: t').
  { unfold console_trace. eexists. reflexivity. }
  destruct Htail as [t' Ht'].
  pose proof (style_lookups_tail _ _ _ _ _ _ _ Ht') as Hnone.
  split; [reflexivity|]. split; [|split; [|split]].
  - rewrite Ht'. simpl. rewrite Hnone. reflexivity.
  - exists t'. split; assumption.
  - apply yields_console_trace.
  - exists [inner]. apply border_calls_console_trace.
Qed.

(** ** Shrink to fit *)

(** C5, as the code has it: a panel that does not expand and has no [width]
    renders with the outer width [m + 2], where [m] is the maximum of the
    renderer's measurement of the content at [max_width - 2] (the two
    border columns are taken off before the content is measured).  That is
    the width [__measure__] reports for [max_width], and [max_width] enters
    through [m] only. *)
Theorem shrink_to_fit console options h w1 s w2 m w3 lines :
  expand (self_obj h) = false ->
  width (self_obj h) = None ->
  Console_get_style R console (style (self_obj h)) (world h) = (w1, Ok s) ->
  Measurement_get R console (renderable (self_obj h))
    (max_width R options - 2) w1 = (w2, Ok m) ->
  Console_render_lines R console (renderable (self_obj h))
    (ConsoleOptions_update R options (maximum m)) w2 = (w3, Ok lines) ->
  outcome_of (console_widths R console options h)
  = Ok (s, maximum m + 2, maximum m)
  /\ outcome_of (__measure__ R console (max_width R options)
                   (mkHeap (self_obj h) w1))
     = Ok (mkMeasurement (maximum m + 2) (maximum m + 2))
  /\ yields (trace_of (__console__ R console options h))
     = List.concat (panel_lines (box (self_obj h)) s (maximum m) lines).
Proof.
  intros He Hw Hs Hm Hl.
  assert (Hi : spec_inner_width R (self_obj h) console options w1
               = (w2, Ok (maximum m))).
  { unfold spec_inner_width. rewrite He, Hw. simpl. rewrite Hm. reflexivity. }
  split; [|split].
  - rewrite (console_widths_run _ _ _ _ _ _ _ Hs Hi). reflexivity.
  - unfold __measure__, bind, get_attr, call, ret, outcome_of. simpl.
    rewrite He. simpl. rewrite Hm. reflexivity.
  - rewrite (console_run _ _ _ _ _ _ _ _ _ Hs Hi Hl).
    apply yields_console_trace.
Qed.

(** ** What the methods leave unchanged *)

Section Frame.

Context {X : Type} (proj : World -> X).

Let MT (A : Type) : Type :=
  @M Style Renderable Console ConsoleOptions World Exn A.

Lemma preserves_ret {A} (a : A) : preserves proj (ret a : MT A).
Proof. intros h. split; reflexivity. Qed.

Lemma preserves_get_attr {A} (attr : Panel -> A) :
  preserves proj (get_attr attr : MT A).
Proof. intros h. split; reflexivity. Qed.

Lemma preserves_call_pure {A} ev (a : A) :
  preserves proj (call_pure ev a : MT A).
Proof. intros h. split; reflexivity. Qed.

Lemma preserves_yield seg : preserves proj (yield seg : MT unit).
Proof. intros h. split; reflexivity. Qed.

Lemma preserves_call {A} ev (f : World -> World * Outcome Exn A) :
  keeps proj f -> preserves proj (call ev f : MT A).
Proof.
  intros Hf h. unfold call, heap_of. specialize (Hf (world h)).
  destruct (f (world h)) as [w' r]. simpl in *. split; [reflexivity | exact Hf].
Qed.

Lemma preserves_bind {A B} (m : MT A) (k : A -> MT B) :
  preserves proj m -> (forall a, preserves proj (k a)) ->
  preserves proj (bind m k).
Proof.
  intros Hm Hk h. unfold bind, heap_of. specialize (Hm h).
  unfold heap_of in Hm.
  destruct (m h) as [[t1 h1] [a|e]]; simpl in *; [|exact Hm].
  specialize (Hk a h1). unfold heap_of in Hk.
  destruct (k a h1) as [[t2 h2] r]. simpl in *.
  destruct Hm as [Hm1 Hm2], Hk as [Hk1 Hk2]. split; congruence.
Qed.

Lemma preserves_for_each {A} (l : list A) (body : A -> MT unit) :
  (forall x, preserves proj (body x)) -> preserves proj (for_each l body).
Proof.
  intros Hb. induction l as [|x l IH]; simpl.
  - apply preserves_ret.
  - apply preserves_bind; [apply Hb | intros _; exact IH].
Qed.

Ltac frame :=
  repeat first
    [ apply preserves_ret
    | apply preserves_get_attr
    | apply preserves_call_pure
    | apply preserves_yield
    | apply preserves_call; solve [auto]
    | apply preserves_for_each; intros
    | apply preserves_bind; [|intros]
    | match goal with
      | |- preserves _ (if ?b then _ else _) => destruct b
      | |- preserves _ (match ?x with _ => _ end) => destruct x
      end ].

Lemma preserves_console console options :
  read_only R proj -> preserves proj (__console__ R console options).
Proof.
  intros (Hgs & Hmg & Hrl).
  unfold __console__, console_widths, console_emit, yield_from. frame.
Qed.

Lemma preserves_measure console max_width :
  read_only R proj -> preserves proj (__measure__ R console max_width).
Proof.
  intros (Hgs & Hmg & Hrl). unfold __measure__. frame.
Qed.

Lemma preserves_run_calls cs h :
  read_only R proj ->
  self_obj (run_calls R cs h) = self_obj h
  /\ proj (world (run_calls R cs h)) = proj (world h).
Proof.
  intros Hro. revert h. unfold run_calls.
  induction cs as [|c cs IH]; intros h; simpl; [split; reflexivity|].
  destruct (IH (run_call R h c)) as [IH1 IH2]. rewrite IH1, IH2.
  destruct c as [console mw | console options]; simpl.
  - exact (preserves_measure console mw Hro h).
  - exact (preserves_console console options Hro h).
Qed.

End Frame.

Lemma read_only_trivial : read_only R (fun _ : World => tt).
Proof. repeat split. Qed.

(** C8: no sequence of [__measure__] and [__console__] calls changes an
    attribute of the panel ([renderable], [box], [expand], [style],
    [width]); and whatever part of the outside world the collaborators
    leave as it was (the content, when they only read it) is as it was
    after the whole sequence: the two methods change nothing of their own. *)
Theorem calls_change_nothing cs h :
  self_obj (run_calls R cs h) = self_obj h
  /\ (forall (X : Type) (proj : World -> X),
        read_only R proj ->
        proj (world (run_calls R cs h)) = proj (world h)).
Proof.
  split.
  - exact (proj1 (preserves_run_calls (fun _ => tt) cs h read_only_trivial)).
  - intros X proj Hro. exact (proj2 (preserves_run_calls proj cs h Hro)).
Qed.

(** [__init__] does write the heap: afterwards the attributes are its
    arguments, whatever they were. *)
Lemma init_sets_attributes r b e n fixed (h : @Heap Style Renderable World) :
  @__init__ Style Renderable Console ConsoleOptions World Exn
    r b e n fixed h
  = ([], mkHeap (mkPanel r b e n fixed) (world h), Ok tt).
Proof. reflexivity. Qed.

(** C9: [__measure__] does not read the [width] attribute: two panels that
    differ in [width] only measure the same (the same call to the renderer,
    the same outcome, the same world afterwards), and an expanding panel
    measures as [(max_width, max_width)] however small its [width]. *)
Theorem measure_ignores_width console max_width p w fixed1 fixed2 :
  let m1 := __measure__ R console max_width (mkHeap (with_width p fixed1) w) in
  let m2 := __measure__ R console max_width (mkHeap (with_width p fixed2) w) in
  trace_of m1 = trace_of m2
  /\ outcome_of m1 = outcome_of m2
  /\ world (heap_of m1) = world (heap_of m2)
  /\ (forall r b name fixed,
        outcome_of (__measure__ R console max_width
                      (mkHeap (mkPanel r b true name (Some fixed)) w))
        = Ok (mkMeasurement max_width max_width)).
Proof.
  unfold __measure__, bind, get_attr, call, ret, with_width,
    trace_of, outcome_of, heap_of. simpl.
  destruct (expand p); simpl.
  - repeat split; reflexivity.
  - destruct (Measurement_get R console (renderable p) (max_width - 2) w)
      as [w' [m|e]]; simpl; repeat split; reflexivity.
Qed.

End Properties.

(** * Concrete runs on the plain-text console *)

Local Open Scope string_scope.

Lemma plain_read_only : read_only Plain.console (fun w : nat => w).
Proof. repeat split. Qed.

(** The panel of width 10 under 40 columns: both border generators get
    [[8]], not [[10]]. *)
Lemma border_generators_get_inner_width_witness :
  let h := mkHeap Plain.hello_expand 0%nat in
  let calls := border_calls (trace_of (__console__ Plain.console tt 40 h)) in
  outcome_of (console_widths Plain.console tt 40 h) = Ok ("red", 10, 8)
  /\ calls = [EvGetTop [8]; EvGetBottom [8]]
  /\ ~ In (EvGetTop [10]) calls.
Proof.
  intros h calls.
  destruct (border_generators_get_inner_width Plain.console tt 40 h
              0%nat "red" 0%nat 8 0%nat
              [[mkSegment "Hello, World!" "none"]]
              eq_refl eq_refl eq_refl) as (Hw & Hc & He & Hn).
  split; [exact Hw|]. split; [exact Hc|].
  apply Hn. rewrite (He eq_refl). discriminate.
Defined.

(** [__measure__] at 40 columns: the expanding panel claims 40, the other
    one 13 + 2. *)
Lemma measure_returns_witness :
  __measure__ Plain.console tt 40 (mkHeap Plain.hello_expand 0%nat)
  = ([], mkHeap Plain.hello_expand 0%nat, Ok (mkMeasurement 40 40))
  /\ __measure__ Plain.console tt 40 (mkHeap Plain.hello 0%nat)
     = ([EvMeasurementGet tt "Hello, World!" 38],
        mkHeap Plain.hello 0%nat, Ok (mkMeasurement 15 15))
  /\ minimum (mkMeasurement 15 15) = maximum (mkMeasurement 15 15).
Proof.
  split; [|split].
  - exact (proj1 (measure_returns Plain.console tt 40
                    (mkHeap Plain.hello_expand 0%nat)) eq_refl).
  - exact (proj1 (proj2 (measure_returns Plain.console tt 40
                           (mkHeap Plain.hello 0%nat)))
             eq_refl 0%nat (mkMeasurement 13 13) eq_refl).
  - exact (proj2 (proj2 (measure_returns Plain.console tt 40
                           (mkHeap Plain.hello 0%nat)))
             _ _ (mkMeasurement 15 15) eq_refl).
Defined.

(** "Hello, World!" under 40 columns: three visual lines. *)
Lemma console_yields_witness :
  yields (trace_of (__console__ Plain.console tt 40 (mkHeap Plain.hello 0%nat)))
  = [mkSegment "+-------------+" "red"; Segment_line;
     mkSegment "|" "red"; mkSegment "Hello, World!" "none";
     mkSegment ("|" ++ newline) "red";
     mkSegment "+-------------+" "red"; Segment_line]
  /\ List.length
       (panel_lines Plain.ASCII "red" 13
          [[mkSegment "Hello, World!" "none"]]) = 3%nat.
Proof.
  destruct (console_yields Plain.console tt 40 (mkHeap Plain.hello 0%nat)
              0%nat "red" 0%nat 13 0%nat
              [[mkSegment "Hello, World!" "none"]]
              eq_refl eq_refl eq_refl) as (Hy & Hl & _ & _).
  split; [exact Hy | exact Hl].
Defined.

(** C5 as the spec words it fails on a text of 13 columns under 14: the
    renderer measures the text at 14 as 13 wide, which plus 2 is 15, while
    the panel renders 14 wide (the text is measured at 12). *)
Lemma shrink_to_fit_at_max_width_counterexample :
  ~ (forall console options h w1 s w2 m outer inner,
       expand (self_obj h) = false ->
       width (self_obj h) = None ->
       Console_get_style Plain.console console (style (self_obj h)) (world h)
       = (w1, Ok s) ->
       Measurement_get Plain.console console (renderable (self_obj h))
         (max_width Plain.console options) w1 = (w2, Ok m) ->
       outcome_of (console_widths Plain.console console options h)
       = Ok (s, outer, inner) ->
       outer = maximum m + 2).
Proof.
  intros Hclaim.
  specialize (Hclaim tt 14 (mkHeap Plain.hello 0%nat) 0%nat "red" 0%nat
                (mkMeasurement 13 13) 14 12
                eq_refl eq_refl eq_refl eq_refl eq_refl).
  discriminate Hclaim.
Qed.

Lemma shrink_to_fit_witness :
  let h := mkHeap Plain.hello 0%nat in
  outcome_of (console_widths Plain.console tt 14 h) = Ok ("red", 14, 12)
  /\ outcome_of (__measure__ Plain.console tt 14 h)
     = Ok (mkMeasurement 14 14)
  /\ yields (trace_of (__console__ Plain.console tt 14 h))
     = [mkSegment "+------------+" "red"; Segment_line;
        mkSegment "|" "red"; mkSegment "Hello, World!" "none";
        mkSegment ("|" ++ newline) "red";
        mkSegment "+------------+" "red"; Segment_line].
Proof.
  exact (shrink_to_fit Plain.console tt 14 (mkHeap Plain.hello 0%nat)
           0%nat "red" 0%nat (mkMeasurement 12 12) 0%nat
           [[mkSegment "Hello, World!" "none"]]
           eq_refl eq_refl eq_refl eq_refl eq_refl).
Defined.

Lemma calls_change_nothing_witness :
  let cs := [CallMeasure tt 20; CallConsole tt 14; CallMeasure tt 5] in
  let h := mkHeap Plain.hello 7%nat in
  self_obj (run_calls Plain.console cs h) = Plain.hello
  /\ world (run_calls Plain.console cs h) = 7%nat.
Proof.
  intros cs h.
  destruct (calls_change_nothing Plain.console cs h) as [Hp Hw].
  split; [exact Hp | exact (Hw nat (fun w => w) plain_read_only)].
Defined.

Lemma border_style_resolved_once_witness :
  style_lookups
    (trace_of (__console__ Plain.console tt 14 (mkHeap Plain.hello 0%nat)))
  = [EvGetStyle tt (StyleName "red")].
Proof.
  exact (proj1 (proj2
           (border_style_resolved_once Plain.console tt 14
              (mkHeap Plain.hello 0%nat) 0%nat "red" 0%nat 12 0%nat
              [[mkSegment "Hello, World!" "none"]]
              eq_refl eq_refl eq_refl))).
Defined.

Local Close Scope string_scope.

(** * Further properties: exceptions, bounds, measure against render *)

Section Further.

Context {Style Renderable Console ConsoleOptions World Exn : Type}.
Variable R : @Collaborators Style Renderable Console ConsoleOptions World Exn.

(** ** The three ways a render can raise *)

Lemma console_raise_style console options h w1 e :
  Console_get_style R console (style (self_obj h)) (world h) = (w1, Raise e) ->
  __console__ R console options h
  = ([EvGetStyle console (style (self_obj h))],
     mkHeap (self_obj h) w1, Raise e).
Proof.
  intros Hs. unfold __console__, console_widths, bind, get_attr, call.
  rewrite Hs. reflexivity.
Qed.

Lemma console_raise_measure console options h w1 s w2 e :
  Console_get_style R console (style (self_obj h)) (world h) = (w1, Ok s) ->
  expand (self_obj h) = false ->
  Measurement_get R console (renderable (self_obj h))
    (start_width R (width (self_obj h)) options - 2) w1 = (w2, Raise e) ->
  __console__ R console options h
  = ([EvGetStyle console (style (self_obj h));
      EvMeasurementGet console (renderable (self_obj h))
        (start_width R (width (self_obj h)) options - 2)],
     mkHeap (self_obj h) w2, Raise e).
Proof.
  intros Hs He Hm. unfold __console__, console_widths, bind, get_attr, call.
  rewrite Hs. simpl. rewrite He. simpl. rewrite Hm. reflexivity.
Qed.

Lemma console_raise_lines console options h w1 s w2 inner w3 e :
  Console_get_style R console (style (self_obj h)) (world h) = (w1, Ok s) ->
  spec_inner_width R (self_obj h) console options w1 = (w2, Ok inner) ->
  Console_render_lines R console (renderable (self_obj h))
    (ConsoleOptions_update R options inner) w2 = (w3, Raise e) ->
  __console__ R console options h
  = (console_calls R (self_obj h) console options inner,
     mkHeap (self_obj h) w3, Raise e).
Proof.
  intros Hs Hi Hl. unfold __console__. unfold bind at 1.
  rewrite (console_widths_run R _ _ _ _ _ _ _ Hs Hi).
  unfold console_emit, bind, call_pure, get_attr, call. simpl.
  rewrite Hl. unfold console_calls.
  destruct (expand (self_obj h)); reflexivity.
Qed.

Lemma console_run_cases console options h :
  ConsoleRun R console options h
    (trace_of (__console__ R console options h))
    (outcome_of (__console__ R console options h)).
Proof.
  destruct (Console_get_style R console (style (self_obj h)) (world h))
    as [w1 [s|e]] eqn:Hs.
  2:{ rewrite (console_raise_style _ _ _ _ _ Hs). apply RunStyleRaises. }
  destruct (spec_inner_width R (self_obj h) console options w1)
    as [w2 [inner|e]] eqn:Hi.
  - destruct (Console_render_lines R console (renderable (self_obj h))
                (ConsoleOptions_update R options inner) w2)
      as [w3 [lines|e]] eqn:Hl.
    + rewrite (console_run R _ _ _ _ _ _ _ _ _ Hs Hi Hl). apply RunCompletes.
    + rewrite (console_raise_lines _ _ _ _ _ _ _ _ _ Hs Hi Hl).
      apply RunLinesRaise.
  - unfold spec_inner_width in Hi.
    destruct (expand (self_obj h)) eqn:He; [discriminate|].
    destruct (Measurement_get R console (renderable (self_obj h))
                (start_width R (width (self_obj h)) options - 2) w1)
      as [w' [m|e']] eqn:Hm; inversion Hi; subst.
    rewrite (console_raise_measure _ _ _ _ _ _ _ Hs He Hm).
    apply RunMeasureRaises. exact He.
Qed.

Lemma console_calls_silent p console options inner :
  yields (console_calls R p console options inner) = []
  /\ border_calls (console_calls R p console options inner) = [].
Proof.
  unfold console_calls. destruct (expand p); split; reflexivity.
Qed.

(** X2: a render yields all of the panel or nothing.  When it raises, no
    segment was yielded and no border was built; when it does not, it
    yields the two borders and at least their four segments.  So a consumer
    that has received the first segment will receive the whole panel: the
    console and the renderer are called before the first [yield], and after
    it only the box is (whose generators build strings and do not raise). *)
Theorem console_all_or_nothing console options h :
  let run := __console__ R console options h in
  (exists e,
     outcome_of run = Raise e
     /\ yields (trace_of run) = []
     /\ border_calls (trace_of run) = [])
  \/ (outcome_of run = Ok tt
      /\ (4 <= List.length (yields (trace_of run)))%nat
      /\ List.length (border_calls (trace_of run)) = 2%nat).
Proof.
  intros run. subst run.
  destruct (console_run_cases console options h)
    as [e | e He | inner e | s inner lines].
  - left. exists e. repeat split; reflexivity.
  - left. exists e. repeat split; reflexivity.
  - left. exists e. split; [reflexivity|]. apply console_calls_silent.
  - right. split; [reflexivity|].
    rewrite yields_console_trace, border_calls_console_trace.
    split; [|reflexivity].
    unfold panel_lines. simpl. rewrite concat_app. simpl.
    rewrite length_app. simpl. lia.
Qed.

(** X3: [__measure__] raises exactly when the panel does not expand and
    measuring the content at [max_width - 2] raises, and then with that
    exception; an expanding panel never raises. *)
Theorem measure_raises_iff console max_width h e :
  outcome_of (__measure__ R console max_width h) = Raise e
  <-> expand (self_obj h) = false
      /\ exists w',
           Measurement_get R console (renderable (self_obj h))
             (max_width - 2) (world h) = (w', Raise e).
Proof.
  unfold __measure__, bind, get_attr, call, ret, outcome_of. simpl.
  destruct (expand (self_obj h)).
  - split; [discriminate | intros [H _]; discriminate].
  - destruct (Measurement_get R console (renderable (self_obj h))
                (max_width - 2) (world h)) as [w' [m|e']]; simpl.
    + split; [discriminate | intros [_ [w'' H]]; discriminate].
    + split.
      * intros H. inversion H; subst. split; [reflexivity | eauto].
      * intros [_ [w'' H]]. inversion H; subst. reflexivity.
Qed.

Lemma init_like_default ROUNDED r (h : @Heap Style Renderable World) :
  @Panel_new Style Renderable Console ConsoleOptions World Exn
    ROUNDED r None None None None h
  = ([], mkHeap (mkPanel r ROUNDED true (StyleName "none"%string) None)
           (world h), Ok tt).
Proof. reflexivity. Qed.

(** ** When the content is measured *)

Lemma measurement_calls_app
    (t1 t2 : list (@Event Style Renderable Console ConsoleOptions)) :
  measurement_calls (t1 ++ t2) = measurement_calls t1 ++ measurement_calls t2.
Proof.
  induction t1 as [|ev t1 IH]; simpl; [reflexivity|].
  destruct ev; simpl; rewrite IH; reflexivity.
Qed.

Lemma measurement_calls_lines a b (lines : list (list (@Segment Style))) :
  measurement_calls
    (flat_map
       (line_events (Renderable := Renderable) (Console := Console)
          (ConsoleOptions := ConsoleOptions) a b) lines) = [].
Proof.
  induction lines as [|line lines IH]; simpl; [reflexivity|].
  rewrite measurement_calls_app, measurement_calls_app, IH.
  simpl. rewrite app_nil_r.
  induction line as [|seg line IHl]; simpl; [reflexivity | exact IHl].
Qed.

Lemma measurement_calls_console console options h :
  measurement_calls (trace_of (__console__ R console options h))
  = match Console_get_style R console (style (self_obj h)) (world h) with
    | (_, Ok _) =>
        if expand (self_obj h) then []
        else [start_width R (width (self_obj h)) options - 2]
    | (_, Raise _) => []
    end.
Proof.
  destruct (Console_get_style R console (style (self_obj h)) (world h))
    as [w1 [s|e]] eqn:Hs.
  2:{ rewrite (console_raise_style _ _ _ _ _ Hs). reflexivity. }
  destruct (spec_inner_width R (self_obj h) console options w1)
    as [w2 [inner|e]] eqn:Hi.
  - destruct (Console_render_lines R console (renderable (self_obj h))
                (ConsoleOptions_update R options inner) w2)
      as [w3 [lines|e]] eqn:Hl.
    + rewrite (console_run R _ _ _ _ _ _ _ _ _ Hs Hi Hl).
      unfold trace_of, console_trace. simpl fst.
      change (measurement_calls (EvGetStyle ?c ?n :: ?t))
        with (measurement_calls t).
      rewrite measurement_calls_app. simpl.
      rewrite measurement_calls_app, measurement_calls_lines. simpl.
      rewrite app_nil_r. destruct (expand (self_obj h)); reflexivity.
    + rewrite (console_raise_lines _ _ _ _ _ _ _ _ _ Hs Hi Hl).
      unfold trace_of, console_calls. simpl fst.
      destruct (expand (self_obj h)); reflexivity.
  - unfold spec_inner_width in Hi.
    destruct (expand (self_obj h)) eqn:He; [discriminate|].
    destruct (Measurement_get R console (renderable (self_obj h))
                (start_width R (width (self_obj h)) options - 2) w1)
      as [w' [m|e']] eqn:Hm; inversion Hi; subst.
    rewrite (console_raise_measure _ _ _ _ _ _ _ Hs He Hm). reflexivity.
Qed.

(** X8: an expanding panel never asks the renderer to measure its content,
    in [__console__] or in [__measure__], however the call ends.  A panel
    that does not expand asks once per [__measure__], at [max_width - 2],
    and once per [__console__] whose style resolved, at the starting width
    less 2; it does not ask when the style does not resolve. *)
Theorem content_measured_only_to_fit console options max_width0 h :
  let p := self_obj h in
  let render := trace_of (__console__ R console options h) in
  let measure := trace_of (__measure__ R console max_width0 h) in
  (expand p = true ->
     measurement_calls render = [] /\ measurement_calls measure = [])
  /\ (expand p = false ->
      measurement_calls measure = [max_width0 - 2]
      /\ (forall w1 s,
            Console_get_style R console (style p) (world h) = (w1, Ok s) ->
            measurement_calls render
            = [start_width R (width p) options - 2])
      /\ (forall w1 e,
            Console_get_style R console (style p) (world h) = (w1, Raise e) ->
            measurement_calls render = [])).
Proof.
  intros p render measure. subst p render measure.
  rewrite measurement_calls_console.
  unfold __measure__, bind, get_attr, call, ret, trace_of. simpl.
  split; intros He; rewrite He; simpl.
  - split; [|reflexivity].
    destruct (Console_get_style R console _ (world h)) as [w1 [s|e]];
      reflexivity.
  - split; [|split].
    + destruct (Measurement_get R console _ _ (world h)) as [w' [m|e]];
        reflexivity.
    + intros w1 s Hs. rewrite Hs. reflexivity.
    + intros w1 e Hs. rewrite Hs. reflexivity.
Qed.

(** ** What a render hands on, whether or not the content can be wrapped *)

Lemma renderer_widths_console console options h w1 s w2 inner :
  Console_get_style R console (style (self_obj h)) (world h) = (w1, Ok s) ->
  spec_inner_width R (self_obj h) console options w1 = (w2, Ok inner) ->
  renderer_widths (trace_of (__console__ R console options h))
  = (if expand (self_obj h) then []
     else [start_width R (width (self_obj h)) options - 2]) ++ [inner].
Proof.
  intros Hs Hi.
  destruct (Console_render_lines R console (renderable (self_obj h))
              (ConsoleOptions_update R options inner) w2)
    as [w3 [lines|e]] eqn:Hl.
  - rewrite (console_run R _ _ _ _ _ _ _ _ _ Hs Hi Hl).
    apply renderer_widths_console_trace.
  - rewrite (console_raise_lines _ _ _ _ _ _ _ _ _ Hs Hi Hl).
    unfold trace_of, console_calls. simpl fst.
    destruct (expand (self_obj h)); reflexivity.
Qed.

Lemma style_lookups_console console options h :
  style_lookups (trace_of (__console__ R console options h))
  = [EvGetStyle console (style (self_obj h))].
Proof.
  destruct (console_run_cases console options h)
    as [e | e He | inner e | s inner lines].
  - reflexivity.
  - reflexivity.
  - unfold console_calls. destruct (expand (self_obj h)); reflexivity.
  - assert (Htail : exists t',
               console_trace R (self_obj h) console options s inner lines
               = EvGetStyle console (style (self_obj h)) :: t').
    { unfold console_trace. eexists. reflexivity. }
    destruct Htail as [t' Ht'].
    pose proof (style_lookups_tail R _ _ _ _ _ _ _ Ht') as Hnone.
    rewrite Ht'. simpl. rewrite Hnone. reflexivity.
Qed.

Lemma expanding_inner_width console options p w :
  expand p = true ->
  spec_inner_width R p console options w
  = (w, Ok (start_width R (width p) options - 2)).
Proof. intros He. unfold spec_inner_width. rewrite He. reflexivity. Qed.

(** ** The starting width, in what a render does *)

(** C4: a render starts from [options.max_width] when the panel has no
    [width], and from [min(width, options.max_width)] when it has one; so a
    [width] above [options.max_width] starts from [options.max_width].  An
    expanding panel is rendered that wide: the child options get the
    starting width less 2, both borders are generated for that one column
    width, and the segments yielded are those of a panel of that inner
    width; for [width = 10] under [max_width = 40] that is an outer width
    of 10 around an inner width of 8.  A panel that does not expand has its
    content measured at the starting width less 2. *)
Theorem starting_outer_width console options h w1 s :
  Console_get_style R console (style (self_obj h)) (world h) = (w1, Ok s) ->
  let p := self_obj h in
  let start := start_width R (width p) options in
  let render := trace_of (__console__ R console options h) in
  (width p = None -> start = max_width R options)
  /\ (forall fixed, width p = Some fixed ->
        start = Z.min fixed (max_width R options)
        /\ (fixed > max_width R options -> start = max_width R options))
  /\ (expand p = true ->
        renderer_widths render = [start - 2]
        /\ forall w3 lines,
             Console_render_lines R console (renderable p)
               (ConsoleOptions_update R options (start - 2)) w1
             = (w3, Ok lines) ->
             border_calls render
             = [EvGetTop [start - 2]; EvGetBottom [start - 2]]
             /\ yields render
                = List.concat (panel_lines (box p) s (start - 2) lines))
  /\ (expand p = true -> width p = Some 10 -> max_width R options = 40 ->
        outcome_of (console_widths R console options h) = Ok (s, 10, 8)
        /\ renderer_widths render = [8]
        /\ forall w3 lines,
             Console_render_lines R console (renderable p)
               (ConsoleOptions_update R options 8) w1 = (w3, Ok lines) ->
             border_calls render = [EvGetTop [8]; EvGetBottom [8]]
             /\ yields render
                = List.concat (panel_lines (box p) s 8 lines))
  /\ (expand p = false -> measurement_calls render = [start - 2]).
Proof.
  intros Hs p start render.
  assert (Hexp : expand p = true ->
            renderer_widths render = [start - 2]
            /\ forall w3 lines,
                 Console_render_lines R console (renderable p)
                   (ConsoleOptions_update R options (start - 2)) w1
                 = (w3, Ok lines) ->
                 border_calls render
                 = [EvGetTop [start - 2]; EvGetBottom [start - 2]]
                 /\ yields render
                    = List.concat (panel_lines (box p) s (start - 2) lines)).
  { intros He.
    pose proof (expanding_inner_width console options p w1 He) as Hi.
    split.
    - subst render.
      rewrite (renderer_widths_console _ _ _ _ _ _ _ Hs Hi).
      fold p. rewrite He. reflexivity.
    - intros w3 lines Hl. subst render.
      rewrite (console_run R _ _ _ _ _ _ _ _ _ Hs Hi Hl).
      unfold trace_of. simpl fst.
      split; [apply border_calls_console_trace | apply yields_console_trace]. }
  split; [|split; [|split; [|split]]].
  - intros Hw. subst start. rewrite Hw. reflexivity.
  - intros fixed Hw. subst start. rewrite Hw. simpl. split; [reflexivity|].
    intros Hgt. apply Z.min_r. lia.
  - exact Hexp.
  - intros He Hw Hmax.
    assert (Hstart : start = 10).
    { subst start. rewrite Hw. simpl. rewrite Hmax. reflexivity. }
    destruct (Hexp He) as [Hrw Hrest]. rewrite Hstart in Hrw, Hrest.
    split; [|split; [exact Hrw | exact Hrest]].
    pose proof (expanding_inner_width console options p w1 He) as Hi.
    fold start in Hi. rewrite Hstart in Hi.
    rewrite (console_widths_run R _ _ _ _ _ _ _ Hs Hi). reflexivity.
  - intros He. subst render. rewrite measurement_calls_console.
    rewrite Hs. fold p. rewrite He. reflexivity.
Qed.

(** ** Degenerate widths *)

(** C6: neither method checks or clamps a width.  With
    [options.max_width < 2] the starting width less 2 is negative, and it
    is that number that the render hands to the renderer: to
    [options.update] when the panel expands, and to [Measurement.get] when
    it does not, after which [options.update] gets the measured maximum as
    the renderer returned it; [__measure__] hands [max_width - 2] to
    [Measurement.get].  This holds for any collaborators, also ones that
    then raise.  Neither method raises of its own: a render whose three
    collaborator calls return ends normally, and a render or a measurement
    that raises had a collaborator call that raised. *)
Theorem degenerate_widths_pass_through console options h :
  max_width R options < 2 ->
  let p := self_obj h in
  let start := start_width R (width p) options in
  let render := __console__ R console options h in
  let measure := __measure__ R console (max_width R options) h in
  start - 2 < 0
  /\ (width p = None -> start - 2 = max_width R options - 2)
  /\ renderer_widths (trace_of measure)
     = (if expand p then [] else [max_width R options - 2])
  /\ (forall w1 s,
        Console_get_style R console (style p) (world h) = (w1, Ok s) ->
        (expand p = true -> renderer_widths (trace_of render) = [start - 2])
        /\ (expand p = false ->
            measurement_calls (trace_of render) = [start - 2]
            /\ forall w2 m,
                 Measurement_get R console (renderable p) (start - 2) w1
                 = (w2, Ok m) ->
                 renderer_widths (trace_of render)
                 = [start - 2; maximum m]))
  /\ (forall w1 s w2 inner w3 lines,
        Console_get_style R console (style p) (world h) = (w1, Ok s) ->
        spec_inner_width R p console options w1 = (w2, Ok inner) ->
        Console_render_lines R console (renderable p)
          (ConsoleOptions_update R options inner) w2 = (w3, Ok lines) ->
        outcome_of render = Ok tt)
  /\ (forall e,
        outcome_of render = Raise e ->
        (exists w1 e',
           Console_get_style R console (style p) (world h) = (w1, Raise e'))
        \/ (exists w1 w2 e',
              expand p = false
              /\ Measurement_get R console (renderable p) (start - 2) w1
                 = (w2, Raise e'))
        \/ (exists inner w2 w3 e',
              Console_render_lines R console (renderable p)
                (ConsoleOptions_update R options inner) w2
              = (w3, Raise e')))
  /\ (forall e,
        outcome_of measure = Raise e ->
        exists w' e',
          expand p = false
          /\ Measurement_get R console (renderable p)
               (max_width R options - 2) (world h) = (w', Raise e')).
Proof.
  intros Hsmall p start render measure.
  assert (Hstart : start <= max_width R options).
  { subst start. unfold start_width. destruct (width p); lia. }
  split; [lia|]. split.
  { intros Hw. subst start. rewrite Hw. reflexivity. }
  split.
  { subst measure. unfold __measure__, bind, get_attr, call, ret, trace_of.
    simpl. fold p. destruct (expand p); [reflexivity|].
    destruct (Measurement_get R console (renderable (self_obj h))
                (max_width R options - 2) (world h)) as [w' [m|e]];
      reflexivity. }
  split.
  { intros w1 s Hs. split; intros He.
    - pose proof (expanding_inner_width console options p w1 He) as Hi.
      subst render. rewrite (renderer_widths_console _ _ _ _ _ _ _ Hs Hi).
      fold p. rewrite He. reflexivity.
    - split.
      + subst render. rewrite measurement_calls_console.
        fold p. rewrite Hs, He. reflexivity.
      + intros w2 m Hm.
        assert (Hi : spec_inner_width R p console options w1
                     = (w2, Ok (maximum m))).
        { unfold spec_inner_width. rewrite He. fold start. rewrite Hm.
          reflexivity. }
        subst render. rewrite (renderer_widths_console _ _ _ _ _ _ _ Hs Hi).
        fold p. rewrite He. reflexivity. }
  split.
  { intros w1 s w2 inner w3 lines Hs Hi Hl. subst render.
    rewrite (console_run R _ _ _ _ _ _ _ _ _ Hs Hi Hl). reflexivity. }
  split.
  { intros e Hraise. subst render.
    destruct (Console_get_style R console (style p) (world h))
      as [w1 [s|e1]] eqn:Hs; [|left; eauto].
    destruct (spec_inner_width R p console options w1)
      as [w2 [inner|e2]] eqn:Hi.
    - destruct (Console_render_lines R console (renderable p)
                  (ConsoleOptions_update R options inner) w2)
        as [w3 [lines|e3]] eqn:Hl.
      + rewrite (console_run R _ _ _ _ _ _ _ _ _ Hs Hi Hl) in Hraise.
        discriminate.
      + right. right. eauto.
    - right. left. unfold spec_inner_width in Hi. fold start in Hi.
      destruct (expand p) eqn:He; [discriminate|].
      destruct (Measurement_get R console (renderable p) (start - 2) w1)
        as [w' [m|e']] eqn:Hm; inversion Hi; subst. eauto. }
  intros e Hraise. subst measure. clear Hstart. subst start p.
  unfold __measure__, bind, get_attr, call, ret, outcome_of in Hraise.
  simpl in Hraise.
  destruct (expand (self_obj h)); [discriminate|].
  destruct (Measurement_get R console (renderable (self_obj h))
              (max_width R options - 2) (world h)) as [w' [m|e']] eqn:Hm;
    simpl in Hraise.
  - discriminate.
  - eauto.
Qed.

(** ** Where a failing render stops *)

(** X1: when a collaborator raises, the render stops at that call and
    raises: a style that does not resolve stops it before the content is
    measured; a failing measurement stops it before the content is wrapped;
    failing to wrap the content stops it before the top border is built.
    The world is left as the failing call left it.  (Which exception the
    consumer of the generator then sees is not stated: Python turns a
    [StopIteration] that leaves a generator body into a [RuntimeError].) *)
Theorem console_raise_propagates console options h :
  let p := self_obj h in
  let start := start_width R (width p) options in
  (forall w1 e,
     Console_get_style R console (style p) (world h) = (w1, Raise e) ->
     exists e',
       __console__ R console options h
       = ([EvGetStyle console (style p)], mkHeap p w1, Raise e'))
  /\ (forall w1 s w2 e,
        Console_get_style R console (style p) (world h) = (w1, Ok s) ->
        expand p = false ->
        Measurement_get R console (renderable p) (start - 2) w1
        = (w2, Raise e) ->
        exists e',
          __console__ R console options h
          = ([EvGetStyle console (style p);
              EvMeasurementGet console (renderable p) (start - 2)],
             mkHeap p w2, Raise e'))
  /\ (forall w1 s w2 inner w3 e,
        Console_get_style R console (style p) (world h) = (w1, Ok s) ->
        spec_inner_width R p console options w1 = (w2, Ok inner) ->
        Console_render_lines R console (renderable p)
          (ConsoleOptions_update R options inner) w2 = (w3, Raise e) ->
        exists e',
          __console__ R console options h
          = (console_calls R p console options inner, mkHeap p w3,
             Raise e')).
Proof.
  intros p start. subst p start. split; [|split].
  - intros w1 e Hs. exists e. apply console_raise_style. exact Hs.
  - intros w1 s w2 e Hs He Hm. exists e.
    exact (console_raise_measure _ _ _ _ _ _ _ Hs He Hm).
  - intros w1 s w2 inner w3 e Hs Hi Hl. exists e.
    exact (console_raise_lines _ _ _ _ _ _ _ _ _ Hs Hi Hl).
Qed.

(** ** Measure against render *)

(** X4: when the [width] attribute does not cut the available width (it is
    [None], or not below [options.max_width]), the panel is rendered exactly
    as wide as [__measure__] reports for [options.max_width], expanding or
    not: the render generates both borders for the column width [inner] and
    yields the segments of a panel of that inner width, and the measurement
    is [inner + 2]. *)
Theorem measure_agrees_with_render console options h w1 s w2 inner w3 lines :
  start_width R (width (self_obj h)) options = max_width R options ->
  Console_get_style R console (style (self_obj h)) (world h) = (w1, Ok s) ->
  spec_inner_width R (self_obj h) console options w1 = (w2, Ok inner) ->
  Console_render_lines R console (renderable (self_obj h))
    (ConsoleOptions_update R options inner) w2 = (w3, Ok lines) ->
  let render := trace_of (__console__ R console options h) in
  border_calls render = [EvGetTop [inner]; EvGetBottom [inner]]
  /\ yields render
     = List.concat (panel_lines (box (self_obj h)) s inner lines)
  /\ outcome_of (__measure__ R console (max_width R options)
                   (mkHeap (self_obj h) w1))
     = Ok (mkMeasurement (inner + 2) (inner + 2)).
Proof.
  intros Hstart Hs Hi Hl render. subst render.
  rewrite (console_run R _ _ _ _ _ _ _ _ _ Hs Hi Hl).
  unfold trace_of. simpl fst.
  split; [apply border_calls_console_trace|].
  split; [apply yields_console_trace|].
  unfold spec_inner_width in Hi. rewrite Hstart in Hi.
  unfold __measure__, bind, get_attr, call, ret, outcome_of. simpl.
  destruct (expand (self_obj h)); simpl.
  - inversion Hi. do 2 f_equal; lia.
  - destruct (Measurement_get R console (renderable (self_obj h))
                (max_width R options - 2) w1) as [w' [m|e]] eqn:Hm;
      inversion Hi; subst. reflexivity.
Qed.

(** X5: a [width] below [options.max_width] is honoured by the render and
    unknown to the measurement.  An expanding panel hands [width - 2] to
    the child options and generates its borders for that column width,
    while it measures as the wider [options.max_width]; a panel that does
    not expand has its content measured at [width - 2] by the render and at
    [options.max_width - 2] by the measurement. *)
Theorem measure_overstates_fixed_width console options h fixed w1 s :
  width (self_obj h) = Some fixed ->
  fixed < max_width R options ->
  Console_get_style R console (style (self_obj h)) (world h) = (w1, Ok s) ->
  let p := self_obj h in
  let render := trace_of (__console__ R console options h) in
  let measure := __measure__ R console (max_width R options) h in
  (expand p = true ->
     renderer_widths render = [fixed - 2]
     /\ outcome_of measure
        = Ok (mkMeasurement (max_width R options) (max_width R options))
     /\ fixed - 2 + 2 < max_width R options
     /\ forall w3 lines,
          Console_render_lines R console (renderable p)
            (ConsoleOptions_update R options (fixed - 2)) w1
          = (w3, Ok lines) ->
          border_calls render
          = [EvGetTop [fixed - 2]; EvGetBottom [fixed - 2]])
  /\ (expand p = false ->
      measurement_calls render = [fixed - 2]
      /\ measurement_calls (trace_of measure) = [max_width R options - 2]
      /\ fixed - 2 <> max_width R options - 2).
Proof.
  intros Hw Hlt Hs p render measure. subst p.
  assert (Hstart : start_width R (width (self_obj h)) options = fixed).
  { rewrite Hw. simpl. apply Z.min_l. lia. }
  split; intros He.
  - pose proof (expanding_inner_width console options (self_obj h) w1 He)
      as Hi. rewrite Hstart in Hi.
    split; [|split; [|split; [lia|]]].
    + subst render. rewrite (renderer_widths_console _ _ _ _ _ _ _ Hs Hi).
      rewrite He. reflexivity.
    + subst measure.
      unfold __measure__, bind, get_attr, ret, outcome_of. simpl.
      rewrite He. reflexivity.
    + intros w3 lines Hl. subst render.
      rewrite (console_run R _ _ _ _ _ _ _ _ _ Hs Hi Hl).
      apply border_calls_console_trace.
  - split; [|split; [|lia]].
    + subst render. rewrite measurement_calls_console.
      rewrite Hs, He, Hstart. reflexivity.
    + subst measure.
      unfold __measure__, bind, get_attr, call, ret, trace_of. simpl.
      rewrite He.
      destruct (Measurement_get R console (renderable (self_obj h))
                  (max_width R options - 2) (world h)) as [w' [m|e]];
        reflexivity.
Qed.

(** X6: with a renderer whose measurements stay within the width it is
    given, a panel is never rendered wider than [options.max_width], nor
    wider than its [width] attribute when it has one: the render asks for
    the content to be wrapped at [inner], generates both borders for the
    column width [inner], and [inner + 2] is within both bounds. *)
Theorem render_within_available_width
    console options h w1 s w2 inner w3 lines :
  measures_within R ->
  Console_get_style R console (style (self_obj h)) (world h) = (w1, Ok s) ->
  spec_inner_width R (self_obj h) console options w1 = (w2, Ok inner) ->
  Console_render_lines R console (renderable (self_obj h))
    (ConsoleOptions_update R options inner) w2 = (w3, Ok lines) ->
  let p := self_obj h in
  let render := trace_of (__console__ R console options h) in
  border_calls render = [EvGetTop [inner]; EvGetBottom [inner]]
  /\ In (EvRenderLines console (renderable p)
           (ConsoleOptions_update R options inner)) render
  /\ yields render = List.concat (panel_lines (box p) s inner lines)
  /\ inner + 2 <= max_width R options
  /\ (forall fixed, width p = Some fixed -> inner + 2 <= fixed).
Proof.
  intros Hwithin Hs Hi Hl p render. subst p render.
  rewrite (console_run R _ _ _ _ _ _ _ _ _ Hs Hi Hl).
  unfold trace_of. simpl fst.
  split; [apply border_calls_console_trace|].
  split.
  { unfold console_trace. right. apply in_or_app. right.
    right. left. reflexivity. }
  split; [apply yields_console_trace|].
  assert (Hstart : start_width R (width (self_obj h)) options
                   <= max_width R options
                   /\ forall fixed, width (self_obj h) = Some fixed ->
                        start_width R (width (self_obj h)) options <= fixed).
  { unfold start_width. destruct (width (self_obj h)) as [f|].
    - split; [apply Z.le_min_r|]. intros fixed E. inversion E; subst.
      apply Z.le_min_l.
    - split; [lia | discriminate]. }
  destruct Hstart as [Hmax Hfixed].
  assert (Hinner : inner <= start_width R (width (self_obj h)) options - 2).
  { unfold spec_inner_width in Hi.
    destruct (expand (self_obj h)).
    - inversion Hi. lia.
    - destruct (Measurement_get R console (renderable (self_obj h))
                  (start_width R (width (self_obj h)) options - 2) w1)
        as [w' [m|e]] eqn:Hm; inversion Hi; subst.
      exact (Hwithin _ _ _ _ _ _ Hm). }
  split; [lia|].
  intros fixed E. specialize (Hfixed fixed E). lia.
Qed.

(** ** The constructor's defaults *)

(** X7: a panel constructed from its content alone and then measured or
    rendered behaves as an expanding panel in the ROUNDED box with the
    style "none" and no [width]: it measures as [(max_width, max_width)]
    without asking the renderer; its render looks up the style named
    "none" and never measures the content; and once that style resolves it
    hands [options.max_width - 2] to the child options and yields the
    segments of a ROUNDED panel of that inner width. *)
Theorem default_panel_expands ROUNDED r console options max_width0 h :
  let h1 :=
    heap_of (@Panel_new Style Renderable Console ConsoleOptions World Exn
               ROUNDED r None None None None h) in
  let render := trace_of (__console__ R console options h1) in
  __measure__ R console max_width0 h1
  = ([], h1, Ok (mkMeasurement max_width0 max_width0))
  /\ style_lookups render = [EvGetStyle console (StyleName "none"%string)]
  /\ measurement_calls render = []
  /\ (forall w1 s,
        Console_get_style R console (StyleName "none"%string) (world h)
        = (w1, Ok s) ->
        renderer_widths render = [max_width R options - 2]
        /\ forall w3 lines,
             Console_render_lines R console r
               (ConsoleOptions_update R options (max_width R options - 2))
               w1 = (w3, Ok lines) ->
             yields render
             = List.concat
                 (panel_lines ROUNDED s (max_width R options - 2) lines)).
Proof.
  intros h1 render. subst render h1. rewrite init_like_default.
  unfold heap_of. simpl fst. simpl snd.
  set (h1 := mkHeap (mkPanel r ROUNDED true (StyleName "none"%string) None)
               (world h)).
  split; [reflexivity|].
  split; [apply style_lookups_console|].
  split.
  { rewrite measurement_calls_console. simpl.
    destruct (Console_get_style R console (StyleName "none"%string) (world h))
      as [w1 [s|e]]; reflexivity. }
  intros w1 s Hs.
  assert (Hi : spec_inner_width R (self_obj h1) console options w1
               = (w1, Ok (max_width R options - 2))).
  { reflexivity. }
  split.
  - rewrite (renderer_widths_console console options h1 w1 s w1 _ Hs Hi).
    reflexivity.
  - intros w3 lines Hl.
    rewrite (console_run R console options h1 w1 s w1 _ w3 lines Hs Hi Hl).
    apply yields_console_trace.
Qed.

(** ** Two renders of the same inputs *)

Section Determinism.

Context {X : Type} (proj : World -> X).

Let MD (A : Type) : Type :=
  @M Style Renderable Console ConsoleOptions World Exn A.

Lemma deterministic_ret {A} (a : A) : deterministic proj (ret a : MD A).
Proof. intros h h' Hin. repeat split; apply Hin. Qed.

Lemma deterministic_get_attr {A} (attr : Panel -> A) :
  deterministic proj (get_attr attr : MD A).
Proof.
  intros h h' [Hp Hw]. unfold get_attr, trace_of, outcome_of, heap_of.
  simpl. rewrite Hp. repeat split; assumption.
Qed.

Lemma deterministic_call_pure {A} ev (a : A) :
  deterministic proj (call_pure ev a : MD A).
Proof. intros h h' Hin. repeat split; apply Hin. Qed.

Lemma deterministic_yield seg : deterministic proj (yield seg : MD unit).
Proof. intros h h' Hin. repeat split; apply Hin. Qed.

Lemma deterministic_call {A} ev (f : World -> World * Outcome Exn A) :
  determined proj f -> deterministic proj (call ev f : MD A).
Proof.
  intros Hf h h' [Hp Hw]. unfold call, trace_of, outcome_of, heap_of.
  destruct (Hf (world h) (world h') Hw) as [Ho Hw'].
  destruct (f (world h)) as [w1 r1], (f (world h')) as [w2 r2].
  simpl in *. repeat split; assumption.
Qed.

Lemma deterministic_bind {A B} (m : MD A) (k : A -> MD B) :
  deterministic proj m -> (forall a, deterministic proj (k a)) ->
  deterministic proj (bind m k).
Proof.
  intros Hm Hk h h' Hin.
  destruct (Hm h h' Hin) as (Ht & Ho & Hh).
  unfold bind, trace_of, outcome_of, heap_of in *.
  destruct (m h) as [[t1 h1] o1], (m h') as [[t1' h1'] o1'].
  simpl in *. subst t1' o1'.
  destruct o1 as [a|e];
    [|split; [reflexivity | split; [reflexivity | exact Hh]]].
  destruct (Hk a h1 h1' Hh) as (Ht2 & Ho2 & Hh2).
  unfold trace_of, outcome_of, heap_of in *.
  destruct (k a h1) as [[t2 h2] r2], (k a h1') as [[t2' h2'] r2'].
  simpl in *. subst t2' r2'.
  split; [reflexivity | split; [reflexivity | exact Hh2]].
Qed.

Lemma deterministic_for_each {A} (l : list A) (body : A -> MD unit) :
  (forall x, deterministic proj (body x)) ->
  deterministic proj (for_each l body).
Proof.
  intros Hb. induction l as [|x l IH]; simpl.
  - apply deterministic_ret.
  - apply deterministic_bind; [apply Hb | intros _; exact IH].
Qed.

Ltac same_run :=
  repeat first
    [ apply deterministic_ret
    | apply deterministic_get_attr
    | apply deterministic_call_pure
    | apply deterministic_yield
    | apply deterministic_call; solve [auto]
    | apply deterministic_for_each; intros
    | apply deterministic_bind; [|intros]
    | match goal with
      | |- deterministic _ (if ?b then _ else _) => destruct b
      | |- deterministic _ (match ?x with _ => _ end) => destruct x
      end ].

Lemma deterministic_console console options :
  determined_by R proj -> deterministic proj (__console__ R console options).
Proof.
  intros (Hgs & Hmg & Hrl).
  unfold __console__, console_widths, console_emit, yield_from. same_run.
Qed.

(** C7: two renders with the same inputs give the same output.  The inputs
    are the panel, the console, the options and the part of the outside
    world that the collaborators' answers depend on (the content, which is
    immutable, and the console's state); the worlds may differ in anything
    else.  From two such heaps a render makes the same calls, yields the
    same segments in the same order and ends the same way; when the first
    render completes, the second yields the very panel that the first
    one's style and lines give.  And when the collaborators leave that part
    of the world as it was, a render run twice in a row gives the same
    output both times, whatever else the first run changed. *)
Theorem render_deterministic console options h :
  determined_by R proj ->
  (forall h',
     same_inputs proj h h' ->
     trace_of (__console__ R console options h')
     = trace_of (__console__ R console options h)
     /\ yields (trace_of (__console__ R console options h'))
        = yields (trace_of (__console__ R console options h))
     /\ outcome_of (__console__ R console options h')
        = outcome_of (__console__ R console options h))
  /\ (forall h' w1 s w2 inner w3 lines,
        same_inputs proj h h' ->
        Console_get_style R console (style (self_obj h)) (world h)
        = (w1, Ok s) ->
        spec_inner_width R (self_obj h) console options w1
        = (w2, Ok inner) ->
        Console_render_lines R console (renderable (self_obj h))
          (ConsoleOptions_update R options inner) w2 = (w3, Ok lines) ->
        yields (trace_of (__console__ R console options h'))
        = List.concat (panel_lines (box (self_obj h)) s inner lines))
  /\ (read_only R proj ->
      let first := __console__ R console options h in
      let second := __console__ R console options (heap_of first) in
      same_inputs proj h (heap_of first)
      /\ trace_of second = trace_of first
      /\ yields (trace_of second) = yields (trace_of first)
      /\ outcome_of second = outcome_of first).
Proof.
  intros Hdet.
  pose proof (deterministic_console console options Hdet) as Hrun.
  assert (Hsame : forall h',
            same_inputs proj h h' ->
            trace_of (__console__ R console options h')
            = trace_of (__console__ R console options h)
            /\ outcome_of (__console__ R console options h')
               = outcome_of (__console__ R console options h)).
  { intros h' Hin. destruct (Hrun h h' Hin) as (Ht & Ho & _).
    split; congruence. }
  split; [|split].
  - intros h' Hin. destruct (Hsame h' Hin) as [Ht Ho].
    rewrite Ht. repeat split. exact Ho.
  - intros h' w1 s w2 inner w3 lines Hin Hs Hi Hl.
    destruct (Hsame h' Hin) as [Ht _]. rewrite Ht.
    rewrite (console_run R _ _ _ _ _ _ _ _ _ Hs Hi Hl).
    apply yields_console_trace.
  - intros Hro first second.
    assert (Hin : same_inputs proj h (heap_of first)).
    { destruct (preserves_console R proj console options Hro h) as [Hp Hw].
      split; symmetry; assumption. }
    destruct (Hsame (heap_of first) Hin) as [Ht Ho].
    fold first second in Ht, Ho.
    split; [exact Hin|]. split; [exact Ht|].
    split; [rewrite Ht; reflexivity | exact Ho].
Qed.

End Determinism.

End Further.

(** * Concrete runs that raise, and runs of the further properties *)

Local Open Scope string_scope.

Lemma plain_measures_within : measures_within Plain.console.
Proof.
  intros console r available w w' m H. simpl in H.
  inversion H; subst. simpl. apply Z.le_min_r.
Qed.

Lemma measure_raises_iff_witness :
  outcome_of (__measure__ Strict.console tt 1 (mkHeap Plain.hello 0%nat))
  = Raise "negative width"
  /\ expand Plain.hello = false.
Proof.
  pose proof (measure_raises_iff Strict.console tt 1
                (mkHeap Plain.hello 0%nat) "negative width") as [Hto Hfrom].
  split.
  - exact (Hfrom (conj eq_refl (ex_intro _ 1%nat eq_refl))).
  - exact (proj1 (Hto eq_refl)).
Defined.

Lemma content_measured_only_to_fit_witness :
  measurement_calls
    (trace_of (__console__ Plain.console tt 40
                 (mkHeap Plain.hello_expand 0%nat))) = []
  /\ measurement_calls
       (trace_of (__console__ Strict.console tt 14
                    (mkHeap Plain.hello 0%nat))) = [12]
  /\ measurement_calls
       (trace_of (__console__ Strict.console tt 14
                    (mkHeap (mkPanel "Hello, World!" Plain.ASCII false
                               (StyleName "blue") None) 0%nat))) = [].
Proof.
  split; [|split].
  - exact (proj1 (proj1 (content_measured_only_to_fit Plain.console tt 40 40
                           (mkHeap Plain.hello_expand 0%nat)) eq_refl)).
  - exact (proj1 (proj2 (proj2 (content_measured_only_to_fit Strict.console
                                  tt 14 14 (mkHeap Plain.hello 0%nat))
                           eq_refl))
             1%nat "red" eq_refl).
  - exact (proj2 (proj2 (proj2 (content_measured_only_to_fit Strict.console
                                  tt 14 14
                                  (mkHeap (mkPanel "Hello, World!"
                                             Plain.ASCII false
                                             (StyleName "blue") None) 0%nat))
                           eq_refl))
             1%nat "MissingStyle" eq_refl).
Defined.


(** * Concrete runs of the revised properties *)

Lemma strict_determined : determined_by Strict.console (fun _ : nat => tt).
Proof. repeat split. Qed.

(** Width 10 under 40 columns (a border of 10 columns around 8), width 10
    under 5, and no width under 14. *)
Lemma starting_outer_width_witness :
  let wide := trace_of (__console__ Plain.console tt 40
                          (mkHeap Plain.hello_expand 0%nat)) in
  border_calls wide = [EvGetTop [8]; EvGetBottom [8]]
  /\ yields wide
     = [mkSegment "+--------+" "red"; Segment_line;
        mkSegment "|" "red"; mkSegment "Hello, World!" "none";
        mkSegment ("|" ++ newline) "red";
        mkSegment "+--------+" "red"; Segment_line]
  /\ Plain.text_width "+--------+" = 10
  /\ start_width Plain.console (Some 10) 5 = 5
  /\ renderer_widths
       (trace_of (__console__ Plain.console tt 5
                    (mkHeap Plain.hello_expand 0%nat))) = [3]
  /\ start_width Plain.console None 14 = 14
  /\ measurement_calls
       (trace_of (__console__ Plain.console tt 14
                    (mkHeap Plain.hello 0%nat))) = [12].
Proof.
  intros wide.
  destruct (starting_outer_width Plain.console tt 40
              (mkHeap Plain.hello_expand 0%nat) 0%nat "red" eq_refl)
    as (_ & _ & _ & Hscenario & _).
  destruct (Hscenario eq_refl eq_refl eq_refl) as (_ & _ & Hrender).
  destruct (Hrender 0%nat [[mkSegment "Hello, World!" "none"]] eq_refl)
    as [Hborders Hyields].
  destruct (starting_outer_width Plain.console tt 5
              (mkHeap Plain.hello_expand 0%nat) 0%nat "red" eq_refl)
    as (_ & Hfixed & Hexpand & _).
  destruct (starting_outer_width Plain.console tt 14
              (mkHeap Plain.hello 0%nat) 0%nat "red" eq_refl)
    as (Hnone & _ & _ & _ & Hfit).
  split; [exact Hborders|]. split; [exact Hyields|].
  split; [reflexivity|].
  split; [exact (proj2 (Hfixed 10 eq_refl) eq_refl)|].
  split; [exact (proj1 (Hexpand eq_refl))|].
  split; [exact (Hnone eq_refl) | exact (Hfit eq_refl)].
Defined.

(** One column.  The strict console refuses to measure at -1 and to wrap at
    -1, and is handed just that; the plain console measures -1 and is then
    asked to wrap at -1. *)
Lemma degenerate_widths_pass_through_witness :
  measurement_calls
    (trace_of (__console__ Strict.console tt 1 (mkHeap Plain.hello 0%nat)))
  = [-1]
  /\ renderer_widths
       (trace_of (__console__ Strict.console tt 1
                    (mkHeap Plain.hello_expand 0%nat))) = [-1]
  /\ renderer_widths
       (trace_of (__console__ Plain.console tt 1 (mkHeap Plain.hello 0%nat)))
     = [-1; -1]
  /\ outcome_of (__console__ Plain.console tt 1 (mkHeap Plain.hello 0%nat))
     = Ok tt
  /\ (exists w' e',
        expand Plain.hello = false
        /\ Measurement_get Strict.console tt "Hello, World!" (-1) 0%nat
           = (w', Raise e')).
Proof.
  destruct (degenerate_widths_pass_through Strict.console tt 1
              (mkHeap Plain.hello 0%nat) eq_refl)
    as (_ & _ & _ & Hfit & _ & _ & Hmeasure).
  destruct (degenerate_widths_pass_through Strict.console tt 1
              (mkHeap Plain.hello_expand 0%nat) eq_refl)
    as (_ & _ & _ & Hexpand & _).
  destruct (degenerate_widths_pass_through Plain.console tt 1
              (mkHeap Plain.hello 0%nat) eq_refl)
    as (_ & _ & _ & Hplain & Hok & _).
  split.
  { exact (proj1 (proj2 (Hfit 1%nat "red" eq_refl) eq_refl)). }
  split.
  { exact (proj1 (Hexpand 1%nat "red" eq_refl) eq_refl). }
  split.
  { exact (proj2 (proj2 (Hplain 0%nat "red" eq_refl) eq_refl)
             0%nat (mkMeasurement (-1) (-1)) eq_refl). }
  split.
  { exact (Hok 0%nat "red" 0%nat (-1) 0%nat
             [[mkSegment "Hello, World!" "none"]] eq_refl eq_refl eq_refl). }
  exact (Hmeasure "negative width" eq_refl).
Defined.

(** The strict console counts its calls, so no two renders start from the
    same world; its answers do not depend on the count.  A render from
    world 0 and one from world 5 yield the same panel, and so does the one
    that follows the first (which left world 3). *)
Lemma render_deterministic_witness :
  let first := __console__ Strict.console tt 14 (mkHeap Plain.hello 0%nat) in
  let other := __console__ Strict.console tt 14 (mkHeap Plain.hello 5%nat) in
  let second := __console__ Strict.console tt 14 (heap_of first) in
  world (heap_of first) = 3%nat
  /\ yields (trace_of other) = yields (trace_of first)
  /\ yields (trace_of other)
     = [mkSegment "+------------+" "red"; Segment_line;
        mkSegment "|" "red"; mkSegment "Hello, World!" "none";
        mkSegment ("|" ++ newline) "red";
        mkSegment "+------------+" "red"; Segment_line]
  /\ yields (trace_of second) = yields (trace_of first)
  /\ outcome_of second = outcome_of first.
Proof.
  intros first other second.
  destruct (render_deterministic Strict.console (fun _ : nat => tt) tt 14
              (mkHeap Plain.hello 0%nat) strict_determined)
    as (Hsame & Hpanel & Htwice).
  destruct (Hsame (mkHeap Plain.hello 5%nat) (conj eq_refl eq_refl))
    as (_ & Hyields & _).
  destruct (Htwice (read_only_trivial Strict.console))
    as (_ & _ & Hagain & Hend).
  split; [reflexivity|]. split; [exact Hyields|].
  split.
  { exact (Hpanel (mkHeap Plain.hello 5%nat) 1%nat "red" 2%nat 12 3%nat
             [[mkSegment "Hello, World!" "none"]]
             (conj eq_refl eq_refl) eq_refl eq_refl eq_refl). }
  split; [exact Hagain | exact Hend].
Defined.

(** An unknown style; a text under 1 column; a text under 2 columns. *)
Lemma console_raise_propagates_witness :
  (exists e',
     __console__ Strict.console tt 40 (mkHeap Strict.blue 0%nat)
     = ([EvGetStyle tt (StyleName "blue")], mkHeap Strict.blue 1%nat,
        Raise e'))
  /\ (exists e',
        __console__ Strict.console tt 1 (mkHeap Plain.hello 0%nat)
        = ([EvGetStyle tt (StyleName "red");
            EvMeasurementGet tt "Hello, World!" (-1)],
           mkHeap Plain.hello 2%nat, Raise e'))
  /\ (exists e',
        __console__ Strict.console tt 2 (mkHeap Plain.hello 0%nat)
        = ([EvGetStyle tt (StyleName "red");
            EvMeasurementGet tt "Hello, World!" 0;
            EvOptionsUpdate 2 0; EvRenderLines tt "Hello, World!" 0],
           mkHeap Plain.hello 3%nat, Raise e')).
Proof.
  split; [|split].
  - exact (proj1 (console_raise_propagates Strict.console tt 40
                    (mkHeap Strict.blue 0%nat))
             1%nat "MissingStyle" eq_refl).
  - exact (proj1 (proj2 (console_raise_propagates Strict.console tt 1
                           (mkHeap Plain.hello 0%nat)))
             1%nat "red" 2%nat "negative width" eq_refl eq_refl eq_refl).
  - exact (proj2 (proj2 (console_raise_propagates Strict.console tt 2
                           (mkHeap Plain.hello 0%nat)))
             1%nat "red" 2%nat 0 3%nat "no room" eq_refl eq_refl eq_refl).
Defined.

(** A text of 13 columns under 14: borders for 12 columns, measured 14. *)
Lemma measure_agrees_with_render_witness :
  border_calls
    (trace_of (__console__ Plain.console tt 14 (mkHeap Plain.hello 0%nat)))
  = [EvGetTop [12]; EvGetBottom [12]]
  /\ outcome_of (__measure__ Plain.console tt 14 (mkHeap Plain.hello 0%nat))
     = Ok (mkMeasurement 14 14).
Proof.
  destruct (measure_agrees_with_render Plain.console tt 14
              (mkHeap Plain.hello 0%nat) 0%nat "red" 0%nat 12 0%nat
              [[mkSegment "Hello, World!" "none"]]
              eq_refl eq_refl eq_refl eq_refl) as (Hb & _ & Hm).
  split; [exact Hb | exact Hm].
Defined.

(** Width 10 under 40 columns, expanding and not. *)
Lemma measure_overstates_fixed_width_witness :
  border_calls
    (trace_of (__console__ Plain.console tt 40
                 (mkHeap Plain.hello_expand 0%nat)))
  = [EvGetTop [8]; EvGetBottom [8]]
  /\ outcome_of (__measure__ Plain.console tt 40
                   (mkHeap Plain.hello_expand 0%nat))
     = Ok (mkMeasurement 40 40)
  /\ measurement_calls
       (trace_of (__console__ Plain.console tt 40
                    (mkHeap (with_width Plain.hello (Some 10)) 0%nat)))
     = [8]
  /\ measurement_calls
       (trace_of (__measure__ Plain.console tt 40
                    (mkHeap (with_width Plain.hello (Some 10)) 0%nat)))
     = [38].
Proof.
  destruct (measure_overstates_fixed_width Plain.console tt 40
              (mkHeap Plain.hello_expand 0%nat) 10 0%nat "red"
              eq_refl eq_refl eq_refl) as [Hexpand _].
  destruct (Hexpand eq_refl) as (_ & Hm & _ & Hb).
  destruct (measure_overstates_fixed_width Plain.console tt 40
              (mkHeap (with_width Plain.hello (Some 10)) 0%nat)
              10 0%nat "red" eq_refl eq_refl eq_refl) as [_ Hfit].
  destruct (Hfit eq_refl) as (Hr & Hme & _).
  split.
  { exact (Hb 0%nat [[mkSegment "Hello, World!" "none"]] eq_refl). }
  split; [exact Hm|]. split; [exact Hr | exact Hme].
Defined.

(** A text of 13 columns under 14: the panel is 14 wide, the content 12. *)
Lemma render_within_available_width_witness :
  border_calls
    (trace_of (__console__ Plain.console tt 14 (mkHeap Plain.hello 0%nat)))
  = [EvGetTop [12]; EvGetBottom [12]]
  /\ 12 + 2 <= max_width Plain.console 14.
Proof.
  destruct (render_within_available_width Plain.console tt 14
              (mkHeap Plain.hello 0%nat) 0%nat "red" 0%nat 12 0%nat
              [[mkSegment "Hello, World!" "none"]]
              plain_measures_within eq_refl eq_refl eq_refl)
    as (Hb & _ & _ & Hmax & _).
  split; [exact Hb | exact Hmax].
Defined.

(** [Panel("Hi")] stored over an earlier panel, measured at 30 and rendered
    under 30 columns in the ASCII box. *)
Lemma default_panel_expands_witness :
  let h1 := heap_of (@Panel_new string string unit Z nat unit
                       Plain.ASCII "Hi" None None None None
                       (mkHeap Plain.hello 0%nat)) in
  let render := trace_of (__console__ Plain.console tt 30 h1) in
  outcome_of (__measure__ Plain.console tt 30 h1) = Ok (mkMeasurement 30 30)
  /\ renderer_widths render = [28]
  /\ yields render
     = List.concat
         (panel_lines Plain.ASCII "none" 28 [[mkSegment "Hi" "none"]]).
Proof.
  intros h1 render.
  destruct (default_panel_expands Plain.console Plain.ASCII "Hi" tt 30 30
              (mkHeap Plain.hello 0%nat)) as (Hm & _ & _ & Hc).
  fold h1 in Hm. fold h1 render in Hc.
  destruct (Hc 0%nat "none" eq_refl) as [Hw Hy].
  split; [rewrite Hm; reflexivity|].
  split; [exact Hw|].
  exact (Hy 0%nat [[mkSegment "Hi" "none"]] eq_refl).
Defined.
